(** * RecipeCore prototype: the summarize pipeline and the save file name

    A shallow embedding of [recipecore_prototype.py]: the button handler
    [summarize_recipe] (URL normalisation, the two-tier extraction, the
    defensive field reads and the tagged inserts into the output widget)
    and the file-name derivation of [save_and_open].

    The Tk widgets, the network and the [recipe_scrapers] library are the
    program's collaborators.  They appear here as an explicit state (the
    entry, the output widget's tagged segments, the dialogs shown, the
    calls made) and as a [world] of outcomes the library calls can have. *)

From Stdlib Require Import List String Ascii Bool Arith NArith ZArith QArith Lia.
From Stdlib Require Import DecimalString.
Import ListNotations.

Local Open Scope N_scope.

(** ** Python strings

    A [str] is a sequence of Unicode code points; [len], slicing and the
    regular expressions of the program all count code points.  A literal
    of the source that is plain ASCII is written [lit "..."]; the line
    feed, the bullet and the en dash of the source's literals are named. *)

Module PyStr.

Definition pystr := list N.

Definition lit (s : string) : pystr :=
  map N_of_ascii (list_ascii_of_string s).
Arguments lit s%_string.

Definition nl : N := 10.          (* "\n" *)
Definition bullet : N := 8226.    (* U+2022 *)
Definition en_dash : N := 8211.   (* U+2013 *)
Definition underscore : N := 95.
Definition hyphen : N := 45.

Definition in_range (lo hi c : N) : bool := (lo <=? c) && (c <=? hi).

(** [str.isspace] on one code point (the whitespace [str.strip()] removes
    and the class [\s] of [re] on [str] patterns): the complete table. *)
Definition isspace (c : N) : bool :=
  in_range 9 13 c || in_range 28 32 c || (c =? 133) || (c =? 160)
  || (c =? 5760) || in_range 8192 8202 c || (c =? 8232) || (c =? 8233)
  || (c =? 8239) || (c =? 8287) || (c =? 12288).

(** The line boundaries of [str.splitlines()]: the complete table. *)
Definition islinebreak (c : N) : bool :=
  in_range 10 13 c || in_range 28 30 c || (c =? 133)
  || (c =? 8232) || (c =? 8233).

(** The alphanumeric code points, as maximal ranges: those on which
    [str.isalnum] holds (a letter, or a decimal, digit or numeric
    character) in the Unicode Character Database 14.0.0 that CPython 3.11
    carries. *)
Definition alnum_ranges : list (N * N) :=
  [ (48, 57); (65, 90); (97, 122); (170, 170); (178, 179); (181, 181);
    (185, 186); (188, 190); (192, 214); (216, 246); (248, 705); (710, 721);
    (736, 740); (748, 748); (750, 750); (880, 884); (886, 887); (890, 893);
    (895, 895); (902, 902); (904, 906); (908, 908); (910, 929); (931, 1013);
    (1015, 1153); (1162, 1327); (1329, 1366); (1369, 1369); (1376, 1416);
    (1488, 1514); (1519, 1522); (1568, 1610); (1632, 1641); (1646, 1647);
    (1649, 1747); (1749, 1749); (1765, 1766); (1774, 1788); (1791, 1791);
    (1808, 1808); (1810, 1839); (1869, 1957); (1969, 1969); (1984, 2026);
    (2036, 2037); (2042, 2042); (2048, 2069); (2074, 2074); (2084, 2084);
    (2088, 2088); (2112, 2136); (2144, 2154); (2160, 2183); (2185, 2190);
    (2208, 2249); (2308, 2361); (2365, 2365); (2384, 2384); (2392, 2401);
    (2406, 2415); (2417, 2432); (2437, 2444); (2447, 2448); (2451, 2472);
    (2474, 2480); (2482, 2482); (2486, 2489); (2493, 2493); (2510, 2510);
    (2524, 2525); (2527, 2529); (2534, 2545); (2548, 2553); (2556, 2556);
    (2565, 2570); (2575, 2576); (2579, 2600); (2602, 2608); (2610, 2611);
    (2613, 2614); (2616, 2617); (2649, 2652); (2654, 2654); (2662, 2671);
    (2674, 2676); (2693, 2701); (2703, 2705); (2707, 2728); (2730, 2736);
    (2738, 2739); (2741, 2745); (2749, 2749); (2768, 2768); (2784, 2785);
    (2790, 2799); (2809, 2809); (2821, 2828); (2831, 2832); (2835, 2856);
    (2858, 2864); (2866, 2867); (2869, 2873); (2877, 2877); (2908, 2909);
    (2911, 2913); (2918, 2927); (2929, 2935); (2947, 2947); (2949, 2954);
    (2958, 2960); (2962, 2965); (2969, 2970); (2972, 2972); (2974, 2975);
    (2979, 2980); (2984, 2986); (2990, 3001); (3024, 3024); (3046, 3058);
    (3077, 3084); (3086, 3088); (3090, 3112); (3114, 3129); (3133, 3133);
    (3160, 3162); (3165, 3165); (3168, 3169); (3174, 3183); (3192, 3198);
    (3200, 3200); (3205, 3212); (3214, 3216); (3218, 3240); (3242, 3251);
    (3253, 3257); (3261, 3261); (3293, 3294); (3296, 3297); (3302, 3311);
    (3313, 3314); (3332, 3340); (3342, 3344); (3346, 3386); (3389, 3389);
    (3406, 3406); (3412, 3414); (3416, 3425); (3430, 3448); (3450, 3455);
    (3461, 3478); (3482, 3505); (3507, 3515); (3517, 3517); (3520, 3526);
    (3558, 3567); (3585, 3632); (3634, 3635); (3648, 3654); (3664, 3673);
    (3713, 3714); (3716, 3716); (3718, 3722); (3724, 3747); (3749, 3749);
    (3751, 3760); (3762, 3763); (3773, 3773); (3776, 3780); (3782, 3782);
    (3792, 3801); (3804, 3807); (3840, 3840); (3872, 3891); (3904, 3911);
    (3913, 3948); (3976, 3980); (4096, 4138); (4159, 4169); (4176, 4181);
    (4186, 4189); (4193, 4193); (4197, 4198); (4206, 4208); (4213, 4225);
    (4238, 4238); (4240, 4249); (4256, 4293); (4295, 4295); (4301, 4301);
    (4304, 4346); (4348, 4680); (4682, 4685); (4688, 4694); (4696, 4696);
    (4698, 4701); (4704, 4744); (4746, 4749); (4752, 4784); (4786, 4789);
    (4792, 4798); (4800, 4800); (4802, 4805); (4808, 4822); (4824, 4880);
    (4882, 4885); (4888, 4954); (4969, 4988); (4992, 5007); (5024, 5109);
    (5112, 5117); (5121, 5740); (5743, 5759); (5761, 5786); (5792, 5866);
    (5870, 5880); (5888, 5905); (5919, 5937); (5952, 5969); (5984, 5996);
    (5998, 6000); (6016, 6067); (6103, 6103); (6108, 6108); (6112, 6121);
    (6128, 6137); (6160, 6169); (6176, 6264); (6272, 6276); (6279, 6312);
    (6314, 6314); (6320, 6389); (6400, 6430); (6470, 6509); (6512, 6516);
    (6528, 6571); (6576, 6601); (6608, 6618); (6656, 6678); (6688, 6740);
    (6784, 6793); (6800, 6809); (6823, 6823); (6917, 6963); (6981, 6988);
    (6992, 7001); (7043, 7072); (7086, 7141); (7168, 7203); (7232, 7241);
    (7245, 7293); (7296, 7304); (7312, 7354); (7357, 7359); (7401, 7404);
    (7406, 7411); (7413, 7414); (7418, 7418); (7424, 7615); (7680, 7957);
    (7960, 7965); (7968, 8005); (8008, 8013); (8016, 8023); (8025, 8025);
    (8027, 8027); (8029, 8029); (8031, 8061); (8064, 8116); (8118, 8124);
    (8126, 8126); (8130, 8132); (8134, 8140); (8144, 8147); (8150, 8155);
    (8160, 8172); (8178, 8180); (8182, 8188); (8304, 8305); (8308, 8313);
    (8319, 8329); (8336, 8348); (8450, 8450); (8455, 8455); (8458, 8467);
    (8469, 8469); (8473, 8477); (8484, 8484); (8486, 8486); (8488, 8488);
    (8490, 8493); (8495, 8505); (8508, 8511); (8517, 8521); (8526, 8526);
    (8528, 8585); (9312, 9371); (9450, 9471); (10102, 10131); (11264, 11492);
    (11499, 11502); (11506, 11507); (11517, 11517); (11520, 11557);
    (11559, 11559); (11565, 11565); (11568, 11623); (11631, 11631);
    (11648, 11670); (11680, 11686); (11688, 11694); (11696, 11702);
    (11704, 11710); (11712, 11718); (11720, 11726); (11728, 11734);
    (11736, 11742); (11823, 11823); (12293, 12295); (12321, 12329);
    (12337, 12341); (12344, 12348); (12353, 12438); (12445, 12447);
    (12449, 12538); (12540, 12543); (12549, 12591); (12593, 12686);
    (12690, 12693); (12704, 12735); (12784, 12799); (12832, 12841);
    (12872, 12879); (12881, 12895); (12928, 12937); (12977, 12991);
    (13312, 19903); (19968, 42124); (42192, 42237); (42240, 42508);
    (42512, 42539); (42560, 42606); (42623, 42653); (42656, 42735);
    (42775, 42783); (42786, 42888); (42891, 42954); (42960, 42961);
    (42963, 42963); (42965, 42969); (42994, 43009); (43011, 43013);
    (43015, 43018); (43020, 43042); (43056, 43061); (43072, 43123);
    (43138, 43187); (43216, 43225); (43250, 43255); (43259, 43259);
    (43261, 43262); (43264, 43301); (43312, 43334); (43360, 43388);
    (43396, 43442); (43471, 43481); (43488, 43492); (43494, 43518);
    (43520, 43560); (43584, 43586); (43588, 43595); (43600, 43609);
    (43616, 43638); (43642, 43642); (43646, 43695); (43697, 43697);
    (43701, 43702); (43705, 43709); (43712, 43712); (43714, 43714);
    (43739, 43741); (43744, 43754); (43762, 43764); (43777, 43782);
    (43785, 43790); (43793, 43798); (43808, 43814); (43816, 43822);
    (43824, 43866); (43868, 43881); (43888, 44002); (44016, 44025);
    (44032, 55203); (55216, 55238); (55243, 55291); (63744, 64109);
    (64112, 64217); (64256, 64262); (64275, 64279); (64285, 64285);
    (64287, 64296); (64298, 64310); (64312, 64316); (64318, 64318);
    (64320, 64321); (64323, 64324); (64326, 64433); (64467, 64829);
    (64848, 64911); (64914, 64967); (65008, 65019); (65136, 65140);
    (65142, 65276); (65296, 65305); (65313, 65338); (65345, 65370);
    (65382, 65470); (65474, 65479); (65482, 65487); (65490, 65495);
    (65498, 65500); (65536, 65547); (65549, 65574); (65576, 65594);
    (65596, 65597); (65599, 65613); (65616, 65629); (65664, 65786);
    (65799, 65843); (65856, 65912); (65930, 65931); (66176, 66204);
    (66208, 66256); (66273, 66299); (66304, 66339); (66349, 66378);
    (66384, 66421); (66432, 66461); (66464, 66499); (66504, 66511);
    (66513, 66517); (66560, 66717); (66720, 66729); (66736, 66771);
    (66776, 66811); (66816, 66855); (66864, 66915); (66928, 66938);
    (66940, 66954); (66956, 66962); (66964, 66965); (66967, 66977);
    (66979, 66993); (66995, 67001); (67003, 67004); (67072, 67382);
    (67392, 67413); (67424, 67431); (67456, 67461); (67463, 67504);
    (67506, 67514); (67584, 67589); (67592, 67592); (67594, 67637);
    (67639, 67640); (67644, 67644); (67647, 67669); (67672, 67702);
    (67705, 67742); (67751, 67759); (67808, 67826); (67828, 67829);
    (67835, 67867); (67872, 67897); (67968, 68023); (68028, 68047);
    (68050, 68096); (68112, 68115); (68117, 68119); (68121, 68149);
    (68160, 68168); (68192, 68222); (68224, 68255); (68288, 68295);
    (68297, 68324); (68331, 68335); (68352, 68405); (68416, 68437);
    (68440, 68466); (68472, 68497); (68521, 68527); (68608, 68680);
    (68736, 68786); (68800, 68850); (68858, 68899); (68912, 68921);
    (69216, 69246); (69248, 69289); (69296, 69297); (69376, 69415);
    (69424, 69445); (69457, 69460); (69488, 69505); (69552, 69579);
    (69600, 69622); (69635, 69687); (69714, 69743); (69745, 69746);
    (69749, 69749); (69763, 69807); (69840, 69864); (69872, 69881);
    (69891, 69926); (69942, 69951); (69956, 69956); (69959, 69959);
    (69968, 70002); (70006, 70006); (70019, 70066); (70081, 70084);
    (70096, 70106); (70108, 70108); (70113, 70132); (70144, 70161);
    (70163, 70187); (70272, 70278); (70280, 70280); (70282, 70285);
    (70287, 70301); (70303, 70312); (70320, 70366); (70384, 70393);
    (70405, 70412); (70415, 70416); (70419, 70440); (70442, 70448);
    (70450, 70451); (70453, 70457); (70461, 70461); (70480, 70480);
    (70493, 70497); (70656, 70708); (70727, 70730); (70736, 70745);
    (70751, 70753); (70784, 70831); (70852, 70853); (70855, 70855);
    (70864, 70873); (71040, 71086); (71128, 71131); (71168, 71215);
    (71236, 71236); (71248, 71257); (71296, 71338); (71352, 71352);
    (71360, 71369); (71424, 71450); (71472, 71483); (71488, 71494);
    (71680, 71723); (71840, 71922); (71935, 71942); (71945, 71945);
    (71948, 71955); (71957, 71958); (71960, 71983); (71999, 71999);
    (72001, 72001); (72016, 72025); (72096, 72103); (72106, 72144);
    (72161, 72161); (72163, 72163); (72192, 72192); (72203, 72242);
    (72250, 72250); (72272, 72272); (72284, 72329); (72349, 72349);
    (72368, 72440); (72704, 72712); (72714, 72750); (72768, 72768);
    (72784, 72812); (72818, 72847); (72960, 72966); (72968, 72969);
    (72971, 73008); (73030, 73030); (73040, 73049); (73056, 73061);
    (73063, 73064); (73066, 73097); (73112, 73112); (73120, 73129);
    (73440, 73458); (73648, 73648); (73664, 73684); (73728, 74649);
    (74752, 74862); (74880, 75075); (77712, 77808); (77824, 78894);
    (82944, 83526); (92160, 92728); (92736, 92766); (92768, 92777);
    (92784, 92862); (92864, 92873); (92880, 92909); (92928, 92975);
    (92992, 92995); (93008, 93017); (93019, 93025); (93027, 93047);
    (93053, 93071); (93760, 93846); (93952, 94026); (94032, 94032);
    (94099, 94111); (94176, 94177); (94179, 94179); (94208, 100343);
    (100352, 101589); (101632, 101640); (110576, 110579); (110581, 110587);
    (110589, 110590); (110592, 110882); (110928, 110930); (110948, 110951);
    (110960, 111355); (113664, 113770); (113776, 113788); (113792, 113800);
    (113808, 113817); (119520, 119539); (119648, 119672); (119808, 119892);
    (119894, 119964); (119966, 119967); (119970, 119970); (119973, 119974);
    (119977, 119980); (119982, 119993); (119995, 119995); (119997, 120003);
    (120005, 120069); (120071, 120074); (120077, 120084); (120086, 120092);
    (120094, 120121); (120123, 120126); (120128, 120132); (120134, 120134);
    (120138, 120144); (120146, 120485); (120488, 120512); (120514, 120538);
    (120540, 120570); (120572, 120596); (120598, 120628); (120630, 120654);
    (120656, 120686); (120688, 120712); (120714, 120744); (120746, 120770);
    (120772, 120779); (120782, 120831); (122624, 122654); (123136, 123180);
    (123191, 123197); (123200, 123209); (123214, 123214); (123536, 123565);
    (123584, 123627); (123632, 123641); (124896, 124902); (124904, 124907);
    (124909, 124910); (124912, 124926); (124928, 125124); (125127, 125135);
    (125184, 125251); (125259, 125259); (125264, 125273); (126065, 126123);
    (126125, 126127); (126129, 126132); (126209, 126253); (126255, 126269);
    (126464, 126467); (126469, 126495); (126497, 126498); (126500, 126500);
    (126503, 126503); (126505, 126514); (126516, 126519); (126521, 126521);
    (126523, 126523); (126530, 126530); (126535, 126535); (126537, 126537);
    (126539, 126539); (126541, 126543); (126545, 126546); (126548, 126548);
    (126551, 126551); (126553, 126553); (126555, 126555); (126557, 126557);
    (126559, 126559); (126561, 126562); (126564, 126564); (126567, 126570);
    (126572, 126578); (126580, 126583); (126585, 126588); (126590, 126590);
    (126592, 126601); (126603, 126619); (126625, 126627); (126629, 126633);
    (126635, 126651); (127232, 127244); (130032, 130041); (131072, 173791);
    (173824, 177976); (177984, 178205); (178208, 183969); (183984, 191456);
    (194560, 195101); (196608, 201546) ].

(** [str.isalnum] on one code point. *)
Definition isalnum (c : N) : bool :=
  existsb (fun r => in_range (fst r) (snd r) c) alnum_ranges.

(** The class [\w] of [re] on [str] patterns: alphanumeric or underscore. *)
Definition isword (c : N) : bool := isalnum c || (c =? underscore).

Definition latin1 (s : pystr) : Prop := Forall (fun c => c < 256) s.

Fixpoint dropwhile (p : N -> bool) (s : pystr) : pystr :=
  match s with
  | [] => []
  | c :: s' => if p c then dropwhile p s' else s
  end.

(** [s.lstrip(chars)], [s.rstrip(chars)], [s.strip(chars)], the character
    set given as a predicate. *)
Definition lstrip_by (p : N -> bool) (s : pystr) : pystr := dropwhile p s.
Definition rstrip_by (p : N -> bool) (s : pystr) : pystr :=
  rev (dropwhile p (rev s)).
Definition strip_by (p : N -> bool) (s : pystr) : pystr :=
  rstrip_by p (lstrip_by p s).

(** [s.strip()] *)
Definition strip (s : pystr) : pystr := strip_by isspace s.

(** [s.startswith(p)] *)
Fixpoint startswith (s p : pystr) {struct p} : bool :=
  match p, s with
  | [], _ => true
  | _ :: _, [] => false
  | a :: p', c :: s' => (a =? c) && startswith s' p'
  end.

(** [s.startswith((p1, p2, ...))] *)
Definition startswith_any (s : pystr) (ps : list pystr) : bool :=
  existsb (startswith s) ps.

(** [needle in s] *)
Fixpoint contains (s needle : pystr) : bool :=
  startswith s needle
  || match s with
     | [] => false
     | _ :: s' => contains s' needle
     end.

(** [sep.join(parts)] *)
Fixpoint join (sep : pystr) (parts : list pystr) : pystr :=
  match parts with
  | [] => []
  | [p] => p
  | p :: rest => p ++ sep ++ join sep rest
  end.

(** [s.splitlines()]: [cur] is the line being read, reversed.  "\r\n" is
    one boundary; a final line without a boundary is kept when it is not
    empty, and no empty line follows a final boundary. *)
Fixpoint splitlines_from (cur : pystr) (s : pystr) : list pystr :=
  match s with
  | [] => match cur with [] => [] | _ => [rev cur] end
  | c :: s' =>
      if islinebreak c then
        match s' with
        | d :: s'' =>
            if (c =? 13) && (d =? 10)
            then rev cur :: splitlines_from [] s''
            else rev cur :: splitlines_from [] s'
        | [] => [rev cur]
        end
      else splitlines_from (c :: cur) s'
  end.

Definition splitlines (s : pystr) : list pystr := splitlines_from [] s.

(** [str(n)] for an [int]. *)
Definition str_of_Z (z : Z) : pystr :=
  lit (NilZero.string_of_int (Z.to_int z)).

Definition str_of_N (n : N) : pystr := str_of_Z (Z.of_N n).

(** A field of [strftime]: [n] in decimal, zero-padded to [width] digits. *)
Definition zero_pad (width : nat) (n : N) : pystr :=
  let d := str_of_N n in
  repeat 48 (width - List.length d)%nat ++ d.

End PyStr.
Import PyStr.

(** ** Exceptions

    The classes the program's handlers tell apart, with the [isinstance]
    tests of its [except] clauses.  Every class here derives from
    [Exception]; [InvalidURL] derives from both [RequestException] and
    [ValueError], as in [requests.exceptions]. *)

Inductive exn_class : Type :=
| WebsiteNotImplementedError
| RequestException
| HTTPError
| ConnectionError
| Timeout
| InvalidURL
| TypeError
| ValueError
| AttributeError
| OverflowError
| OtherException.

Record exn : Type := Exn { cls : exn_class; msg : pystr }.

Definition is_WebsiteNotImplementedError (e : exn) : bool :=
  match cls e with WebsiteNotImplementedError => true | _ => false end.

Definition is_RequestException (e : exn) : bool :=
  match cls e with
  | RequestException | HTTPError | ConnectionError | Timeout | InvalidURL => true
  | _ => false
  end.

Definition is_TypeError (e : exn) : bool :=
  match cls e with TypeError => true | _ => false end.

Definition is_ValueError (e : exn) : bool :=
  match cls e with ValueError | InvalidURL => true | _ => false end.

Arguments is_WebsiteNotImplementedError : simpl never.
Arguments is_RequestException : simpl never.
Arguments is_TypeError : simpl never.
Arguments is_ValueError : simpl never.

(** The outcome of calling into a collaborator. *)
Inductive call (A : Type) : Type :=
| Returns (a : A)
| Raises (e : exn).
Arguments Returns {A} a.
Arguments Raises {A} e.

(** ** What a scraper returns *)

(** A [float]: a finite value is a rational. *)
Inductive pyfloat : Type :=
| Finite (q : Q)
| NaN
| Infinity (negative : bool).

(** [int(x)] for a float: truncation toward zero; NaN and the infinities
    raise. *)
Definition int_of_float (x : pyfloat) : call Z :=
  match x with
  | Finite q => Returns (Z.quot (Qnum q) (Z.pos (Qden q)))
  | NaN => Raises (Exn ValueError (lit "cannot convert float NaN to integer"))
  | Infinity _ =>
      Raises (Exn OverflowError (lit "cannot convert float infinity to integer"))
  end.

(** The value of a time accessor: [None], a number of minutes, or text. *)
Inductive timeval : Type :=
| TNone
| TInt (z : Z)
| TFloat (x : pyfloat)
| TStr (s : pystr).

(** A scraper object as the program uses it.  The five accessors it calls
    by name return text (or a list of text), [None], or raise; an accessor
    the object lacks raises [AttributeError] when called.  The time
    accessors are looked up by attribute name ([hasattr]/[getattr]):
    [attr s name] is [None] when the object has no such attribute. *)
Record scraper : Type := {
  title : call (option pystr);
  yields : call (option pystr);
  description : call (option pystr);
  ingredients : call (option (list pystr));
  instructions : call (option pystr);
  attr : string -> option (call timeval)
}.

(** The response of [requests.get]: what [raise_for_status()] raises, if
    anything, and the body. *)
Record response : Type := {
  status_error : option exn;
  text : pystr
}.

(** The outcomes of the three library calls of one run. *)
Record world : Type := {
  scrape_me : pystr -> call scraper;
  requests_get : pystr -> call response;
  scrape_html : pystr -> pystr -> call scraper
}.

(** ** The window *)

Inductive tag : Type := Title | Heading | Body | Note | Error.

(** One [output_text.insert(tk.END, text, tag)]; the tag is optional. *)
Record segment : Type := Seg { seg_text : pystr; seg_tag : option tag }.

Inductive dialog : Type :=
| ShowWarning (caption message : pystr).

Inductive request : Type :=
| ScrapeMe (url : pystr)
| RequestsGet (url user_agent : pystr) (timeout : N)
| ScrapeHtml (html org_url : pystr).

Record gui : Type := {
  url_entry : pystr;              (* the entry's content *)
  output_text : list segment;     (* the output widget, in insertion order *)
  dialogs : list dialog;          (* message boxes shown so far *)
  calls : list request            (* library calls made so far *)
}.

(** ** Statements with effects

    A statement runs on the window and ends normally, by raising, or by
    the function's [return].  The window keeps what was done to it before
    a raise: nothing is rolled back. *)

Inductive outcome (A : Type) : Type :=
| Normal (a : A)
| Raised (e : exn)
| Returned.
Arguments Normal {A} a.
Arguments Raised {A} e.
Arguments Returned {A}.

Definition M (A : Type) : Type := gui -> outcome A * gui.

Definition ret {A} (a : A) : M A := fun g => (Normal a, g).

Definition bind {A B} (m : M A) (k : A -> M B) : M B :=
  fun g =>
    match m g with
    | (Normal a, g') => k a g'
    | (Raised e, g') => (Raised e, g')
    | (Returned, g') => (Returned, g')
    end.

Definition raise {A} (e : exn) : M A := fun g => (Raised e, g).

(** [return] *)
Definition return_ {A} : M A := fun g => (Returned, g).

(** [try: m  except Exception as e: h e]; a handler that does not match
    re-raises. *)
Definition try_except {A} (m : M A) (h : exn -> M A) : M A :=
  fun g =>
    match m g with
    | (Raised e, g') => h e g'
    | r => r
    end.

(** A function called for its effects: [return] ends it normally. *)
Definition def (body : M unit) : M unit :=
  fun g =>
    match body g with
    | (Returned, g') => (Normal tt, g')
    | r => r
    end.

(** The result of a collaborator's call, as a statement. *)
Definition of_call {A} (c : call A) : M A :=
  match c with
  | Returns a => ret a
  | Raises e => raise e
  end.

Declare Scope py_scope.
Delimit Scope py_scope with py.
Notation "x <- m ;; k" := (bind m (fun x => k))
  (at level 61, m at next level, right associativity) : py_scope.
Notation "m ;; k" := (bind m (fun _ => k))
  (at level 61, right associativity) : py_scope.
Local Open Scope py_scope.

(** *** The widgets *)

Definition url_entry_get : M pystr := fun g => (Normal (url_entry g), g).

(** [output_text.delete(1.0, tk.END)] *)
Definition output_delete_all : M unit :=
  fun g => (Normal tt,
            {| url_entry := url_entry g; output_text := [];
               dialogs := dialogs g; calls := calls g |}).

(** [output_text.insert(tk.END, text, tag)] *)
Definition output_insert (t : pystr) (tg : option tag) : M unit :=
  fun g => (Normal tt,
            {| url_entry := url_entry g;
               output_text := output_text g ++ [Seg t tg];
               dialogs := dialogs g; calls := calls g |}).

(** [messagebox.showwarning(caption, message)] *)
Definition showwarning (caption message : pystr) : M unit :=
  fun g => (Normal tt,
            {| url_entry := url_entry g; output_text := output_text g;
               dialogs := dialogs g ++ [ShowWarning caption message];
               calls := calls g |}).

(** [window.update_idletasks()]: redraws, changes nothing. *)
Definition update_idletasks : M unit := ret tt.

(** A library call: logged, then its outcome. *)
Definition library {A} (r : request) (c : call A) : M A :=
  fun g => of_call c
             {| url_entry := url_entry g; output_text := output_text g;
                dialogs := dialogs g; calls := calls g ++ [r] |}.

(** [for x in xs: body], threading the loop's local variable. *)
Fixpoint for_fold {A S} (xs : list A) (body : S -> A -> M S) (s : S) : M S :=
  match xs with
  | [] => ret s
  | x :: xs' => s' <- body s x ;; for_fold xs' body s'
  end.

(** [for x in xs: body] *)
Definition for_each {A} (xs : list A) (body : A -> M unit) : M unit :=
  for_fold xs (fun _ x => body x) tt.

(** ** [summarize_recipe] *)

(** [not xs] for a string or a list. *)
Definition is_empty {A} (xs : list A) : bool :=
  match xs with [] => true | _ => false end.

(** [v or d] on an optional string: [None] and [""] are falsy. *)
Definition or_default (v : option pystr) (d : pystr) : pystr :=
  match v with
  | Some ((_ :: _) as s) => s
  | _ => d
  end.

(** Lines 66-68: the scheme test and the prefix. *)
Definition prefix_scheme (url : pystr) : pystr :=
  if negb (startswith_any url [lit "http://"; lit "https://"])
  then lit "https://" ++ url
  else url.

(** Lines 112-113: the cap on the description. *)
Definition clip_description (d : pystr) : pystr :=
  if (600 <? List.length d)%nat then firstn 597 d ++ lit "..." else d.

(** Lines 117-121. *)
Definition time_methods : list (string * pystr) :=
  [ ("total_time"%string, lit "Total");
    ("preptime"%string,   lit "Prep");
    ("cooktime"%string,   lit "Cook") ].

(** Lines 124-134: one turn of the loop over [time_methods]. *)
Definition time_entry (sc : scraper) (times : list pystr)
    (m : string * pystr) : M (list pystr) :=
  let '(method_name, label) := m in
  match attr sc method_name with
  | None => ret times
  | Some getter =>
      try_except
        (value <- of_call getter ;;
         match value with
         | TNone => ret times
         | TInt z =>
             ret (times ++ [label ++ lit ": " ++ str_of_Z z ++ lit " min"])
         | TFloat x =>
             n <- of_call (int_of_float x) ;;
             ret (times ++ [label ++ lit ": " ++ str_of_Z n ++ lit " min"])
         | TStr v => ret (times ++ [label ++ lit ": " ++ v])
         end)
        (fun e => if is_TypeError e || is_ValueError e then ret times
                  else raise e)
  end.

(** Lines 136-138. *)
Definition time_line (times : list pystr) (fallback_used : bool) : pystr :=
  let time_str :=
    if is_empty times then lit "Times not available"
    else join (lit " | ") times in
  if fallback_used && is_empty times
  then time_str ++ lit " (check original page)"
  else time_str.

(** Line 160: the trimmed, non-empty lines of the instructions. *)
Definition steps_of (instr_text : pystr) : list pystr :=
  filter (fun s => negb (is_empty s)) (map strip (splitlines instr_text)).

(** [enumerate(xs, start)] *)
Definition enumerate {A} (start : nat) (xs : list A) : list (nat * A) :=
  combine (seq start (List.length xs)) xs.

(** Lines 106-144: the overview paragraph. *)
Definition overview_paragraph (sc : scraper) (fallback_used : bool)
    : M unit :=
  t <- of_call (title sc) ;;
  let title' := or_default t (lit "Recipe (title not found)") in
  y <- of_call (yields sc) ;;
  let servings := or_default y (lit "N/A") in
  d <- of_call (description sc) ;;
  let description' :=
    clip_description (or_default d (lit "No description available.")) in
  times <- for_fold time_methods (time_entry sc) [] ;;
  let time_str := time_line times fallback_used in
  output_insert (title' ++ [nl; nl]) (Some Title) ;;
  output_insert (lit "Servings: " ++ servings ++ [nl]) (Some Heading) ;;
  output_insert (time_str ++ [nl]) (Some Heading) ;;
  output_insert (lit "Notes: " ++ description' ++ [nl; nl]) (Some Heading).

(** Lines 146-154: the ingredients paragraph. *)
Definition ingredients_paragraph (sc : scraper) : M unit :=
  ing_list <- of_call (ingredients sc) ;;
  match ing_list with
  | Some ((_ :: _) as items) =>
      output_insert (lit "Ingredients:" ++ [nl]) (Some Heading) ;;
      for_each items (fun item =>
        output_insert ([bullet; 32] ++ strip item ++ [nl]) (Some Body)) ;;
      output_insert [nl] None
  | _ =>
      output_insert (lit "Ingredients: (not found)" ++ [nl; nl]) (Some Heading)
  end.

(** Lines 156-165: the instructions paragraph. *)
Definition instructions_paragraph (sc : scraper) : M unit :=
  instr_text <- of_call (instructions sc) ;;
  match instr_text with
  | Some ((_ :: _) as txt) =>
      output_insert (lit "Instructions:" ++ [nl]) (Some Heading) ;;
      for_each (enumerate 1 (steps_of txt)) (fun '(i, step) =>
        output_insert (str_of_N (N.of_nat i) ++ lit ". " ++ step ++ [nl])
                      (Some Body)) ;;
      output_insert [nl] None
  | _ =>
      output_insert
        (lit "Instructions: (not extracted " ++ [en_dash]
           ++ lit " see original site)" ++ [nl])
        (Some Heading)
  end.

(** Lines 106-165: the three paragraphs. *)
Definition write_summary (sc : scraper) (fallback_used : bool) : M unit :=
  overview_paragraph sc fallback_used ;;
  ingredients_paragraph sc ;;
  instructions_paragraph sc.

(** Lines 102-165: the body of the second [try]; it first clears the
    widget (line 104). *)
Definition build_summary (sc : scraper) (fallback_used : bool) : M unit :=
  output_delete_all ;;
  write_summary sc fallback_used.

(** Lines 167-169: the handler of the second [try]. *)
Definition parsing_issue (parse_err : exn) : segment :=
  Seg ([nl] ++ lit "Unexpected parsing issue: " ++ msg parse_err ++ [nl]
         ++ lit "Partial data shown above.")
      (Some Error).

(** Lines 101-169: step 2. *)
Definition step2 (sc : scraper) (fallback_used : bool) : M unit :=
  try_except (build_summary sc fallback_used)
    (fun parse_err =>
       output_insert (seg_text (parsing_issue parse_err)) (Some Error)).

(** Line 85: the value of the "User-Agent" header. *)
Definition user_agent : pystr := lit "Mozilla/5.0 RecipeCore HCI Prototype".

(** Line 89: the text inserted with the tag "note". *)
Definition fallback_note : pystr :=
  lit "Note: Using fallback schema.org parsing (may miss some details)."
    ++ [nl; nl].

(** [response.raise_for_status()] *)
Definition raise_for_status (r : response) : M unit :=
  match status_error r with
  | Some e => raise e
  | None => ret tt
  end.

(** Lines 79-98: step 1, which yields the scraper and [fallback_used]. *)
Definition step1 (w : world) (url : pystr) : M (scraper * bool) :=
  try_except
    (sc <- library (ScrapeMe url) (scrape_me w url) ;;
     ret (sc, false))
    (fun e =>
       if is_WebsiteNotImplementedError e then
         try_except
           (resp <- library (RequestsGet url user_agent 12)
                            (requests_get w url) ;;
            raise_for_status resp ;;
            sc <- library (ScrapeHtml (text resp) url)
                          (scrape_html w (text resp) url) ;;
            output_insert fallback_note (Some Note) ;;
            ret (sc, true))
           (fun err =>
              if is_RequestException err then
                output_insert
                  (lit "Could not load page: " ++ msg err ++ [nl]
                     ++ lit "Try another URL." ++ [nl])
                  (Some Error) ;;
                return_
              else
                output_insert (lit "Fallback failed: " ++ msg err ++ [nl])
                              (Some Error) ;;
                return_)
       else
         output_insert
           (lit "Parsing error: " ++ msg e ++ [nl]
              ++ lit "Try a different recipe site." ++ [nl])
           (Some Error) ;;
         return_).

(** Line 181, and the text of line 72. *)
Definition loading_marker : pystr := lit "Fetching and summarizing recipe...".

Definition loading_message : pystr := loading_marker ++ [nl; nl].

(** Lines 53-169: the handler of the "Summarize" button. *)
Definition summarize_recipe (w : world) : M unit :=
  def
    (raw <- url_entry_get ;;
     let url := strip raw in
     if is_empty url then
       showwarning (lit "Input Error") (lit "Please enter a recipe URL.") ;;
       return_
     else
       let url := prefix_scheme url in
       output_delete_all ;;
       output_insert loading_message None ;;
       update_idletasks ;;
       r <- step1 w url ;;
       let '(sc, fallback_used) := r in
       step2 sc fallback_used).

(** ** The file name of [save_and_open] (lines 186-204) *)

(** [re.sub(r'[...]', repl, s)] for a pattern that is one character class:
    each character of the class is replaced. *)
Definition re_sub_class (class : N -> bool) (repl s : pystr) : pystr :=
  flat_map (fun c => if class c then repl else [c]) s.

(** [re.sub(r'[...]+', repl, s)]: each maximal run of the class is
    replaced once; [in_run] tells that the previous character was of the
    class. *)
Fixpoint re_sub_runs_from (class : N -> bool) (repl : pystr) (in_run : bool)
    (s : pystr) : pystr :=
  match s with
  | [] => []
  | c :: s' =>
      if class c
      then (if in_run then [] else repl) ++ re_sub_runs_from class repl true s'
      else c :: re_sub_runs_from class repl false s'
  end.

(** [re.sub(r'[...]+', repl, s)] *)
Definition re_sub_runs (class : N -> bool) (repl s : pystr) : pystr :=
  re_sub_runs_from class repl false s.

(** The class [[^\w\s-]] of line 191. *)
Definition special_char (c : N) : bool :=
  negb (isword c || isspace c || (c =? hyphen)).

(** Line 178: [output_text.get("1.0", tk.END).strip()]; Tk ends the
    content of a text widget with a line feed. *)
Definition text_to_save (g : gui) : pystr :=
  strip (List.concat (map seg_text (output_text g)) ++ [nl]).

(** Line 182: the guard under which nothing is saved. *)
Definition nothing_to_save (text : pystr) : bool :=
  (List.length text <? 100)%nat
  || (contains text loading_marker
      && (List.length (splitlines text) <? 5)%nat).

(** Lines 187-188: the first non-empty line of the text, trimmed. *)
Definition first_line_title (text : pystr) : pystr :=
  match filter (fun l => negb (is_empty l)) (map strip (splitlines text)) with
  | l :: _ => l
  | [] => lit "Recipe"
  end.

(** Lines 191-196. *)
Definition clean_title (title : pystr) : pystr :=
  let clean_title := re_sub_class special_char [] title in
  let clean_title := re_sub_runs isspace [underscore] clean_title in
  let clean_title := strip_by (N.eqb underscore) clean_title in
  if is_empty clean_title then lit "edited_recipe" else clean_title.

(** The fields of a [datetime] that the file name uses. *)
Record datetime : Type := {
  year : N; month : N; day : N; hour : N; minute : N
}.

(** [now.strftime("%Y-%m-%d_%H%M")] *)
Definition timestamp (now : datetime) : pystr :=
  zero_pad 4 (year now) ++ [hyphen] ++ zero_pad 2 (month now) ++ [hyphen]
    ++ zero_pad 2 (day now) ++ [underscore]
    ++ zero_pad 2 (hour now) ++ zero_pad 2 (minute now).

(** Lines 198-204: [path_exists] is [os.path.exists], [now] is what
    [datetime.now()] returns. *)
Definition file_path (path_exists : pystr -> bool) (now : datetime)
    (title : pystr) : pystr :=
  let clean_title := clean_title title in
  let base_name := clean_title ++ lit ".txt" in
  if path_exists base_name
  then clean_title ++ [underscore] ++ timestamp now ++ lit ".txt"
  else base_name.

(** ** [save_and_open] (lines 172-222) *)

(** [a == b] on strings. *)
Fixpoint pystr_eqb (a b : pystr) : bool :=
  match a, b with
  | [], [] => true
  | x :: a', y :: b' => (x =? y) && pystr_eqb a' b'
  | _, _ => false
  end.

(** The regular files of the working directory, by name. *)
Definition disk : Type := pystr -> option pystr.

Definition disk_write (files : disk) (path content : pystr) : disk :=
  fun p => if pystr_eqb p path then Some content else files p.

(** [os.path.exists(path)] *)
Definition path_exists (files : disk) (path : pystr) : bool :=
  match files path with Some _ => true | None => false end.

(** [sys.platform], as lines 213-217 tell it apart. *)
Inductive platform : Type := Darwin | Win32 | OtherPlatform.

(** What opens the file: [subprocess.run(argv)] or [os.startfile(path)]. *)
Inductive launch : Type :=
| SubprocessRun (argv : list pystr)
| OsStartfile (path : pystr).

(** [messagebox.showinfo] and [messagebox.showerror]. *)
Inductive box : Type :=
| ShowInfo (caption message : pystr)
| ShowError (caption message : pystr).

(** How the [with open(file_path, "w") ...] block of lines 207-210 ends:
    the three writes are done; [open] raised; or a write raised with
    [partial] on the disk. *)
Inductive write_result : Type :=
| Wrote
| OpenFailed (e : exn)
| WriteFailed (e : exn) (partial : pystr).

(** The machine a save runs on: the clock, the platform, and what happens
    when a file is written or opened. *)
Record host : Type := {
  datetime_now : datetime;
  sys_platform : platform;
  write_file : pystr -> pystr -> write_result;
  launch_error : launch -> option exn
}.

(** The window together with what a save can change outside it. *)
Record desk : Type := {
  win : gui;
  files : disk;
  boxes : list box;           (* info and error boxes shown so far *)
  launched : list launch      (* attempts to open a file so far *)
}.

(** Lines 208-210: what is written to the file. *)
Definition file_content (title url text : pystr) : pystr :=
  lit "RecipeCore Summary " ++ [en_dash; 32] ++ title ++ [nl]
    ++ repeat 61 50 ++ [nl; nl]
    ++ lit "Source URL: " ++ url ++ [nl; nl]
    ++ text.

(** Lines 213-218. *)
Definition opener (pf : platform) (file_path : pystr) : launch :=
  match pf with
  | Darwin => SubprocessRun [lit "open"; file_path]
  | Win32 => OsStartfile file_path
  | OtherPlatform => SubprocessRun [lit "xdg-open"; file_path]
  end.

(** Lines 221-222: the handler of the [try]. *)
Definition save_error (e : exn) : box :=
  ShowError (lit "Save Error")
            (lit "Could not save/open file:" ++ [nl] ++ msg e).

(** Line 220. *)
Definition saved_and_opened (file_path : pystr) : box :=
  ShowInfo (lit "Saved & Opened")
    (lit "Saved as:" ++ [nl] ++ file_path ++ [nl]
       ++ lit "Opened in default app (TextEdit on Mac) for printing/editing.").

(** Lines 172-222. *)
Definition save_and_open (h : host) (d : desk) : desk :=
  let text := text_to_save (win d) in
  if nothing_to_save text then
    {| win := snd (showwarning (lit "Nothing to save")
                               (lit "Run a summary first.") (win d));
       files := files d; boxes := boxes d; launched := launched d |}
  else
    let title := first_line_title text in
    let file_path :=
      file_path (path_exists (files d)) (datetime_now h) title in
    let content := file_content title (strip (url_entry (win d))) text in
    match write_file h file_path content with
    | OpenFailed e =>
        {| win := win d; files := files d;
           boxes := boxes d ++ [save_error e]; launched := launched d |}
    | WriteFailed e partial =>
        {| win := win d; files := disk_write (files d) file_path partial;
           boxes := boxes d ++ [save_error e]; launched := launched d |}
    | Wrote =>
        let cmd := opener (sys_platform h) file_path in
        match launch_error h cmd with
        | Some e =>
            {| win := win d;
               files := disk_write (files d) file_path content;
               boxes := boxes d ++ [save_error e];
               launched := launched d ++ [cmd] |}
        | None =>
            {| win := win d;
               files := disk_write (files d) file_path content;
               boxes := boxes d ++ [saved_and_opened file_path];
               launched := launched d ++ [cmd] |}
        end
    end.

(** ** The window at start-up (lines 322-329) *)

Definition initial_output : list segment :=
  [ Seg (lit "Paste a cooking recipe URL above and click the button."
           ++ [nl; nl]) None;
    Seg (lit "Compatible with many recipe blogs such as, but not limited to:"
           ++ [nl; bullet] ++ lit " allrecipes.com"
           ++ [nl; bullet] ++ lit " loveandlemons.com"
           ++ [nl; bullet] ++ lit " bbcgoodfood.com"
           ++ [nl; bullet] ++ lit " foodnetwork.com" ++ [nl; nl])
        (Some Note);
    Seg (lit "Recipes provided without the extra unneeded details!"
           ++ [nl; nl]) None ].

Definition initial_window : gui :=
  {| url_entry := []; output_text := initial_output;
     dialogs := []; calls := [] |}.

(** * The vocabulary of the statements *)

(** [window g out cs]: the window [g] with its output replaced by [out] and
    the calls [cs] made since; the entry and the dialogs are those of [g]. *)
Definition window (g : gui) (out : list segment) (cs : list request) : gui :=
  {| url_entry := url_entry g; output_text := out;
     dialogs := dialogs g; calls := calls g ++ cs |}.

(** The window once the loading message is up (lines 71-73). *)
Definition loading (g : gui) : gui :=
  window g [Seg loading_message None] [].

(** The three error segments of step 1. *)
Definition parsing_error (e : exn) : segment :=
  Seg (lit "Parsing error: " ++ msg e ++ [nl]
         ++ lit "Try a different recipe site." ++ [nl]) (Some Error).

Definition could_not_load (e : exn) : segment :=
  Seg (lit "Could not load page: " ++ msg e ++ [nl]
         ++ lit "Try another URL." ++ [nl]) (Some Error).

Definition fallback_failed (e : exn) : segment :=
  Seg (lit "Fallback failed: " ++ msg e ++ [nl]) (Some Error).

(** The fetch of the fallback fails with [e]: [requests.get] raises it, or
    the response's [raise_for_status()] does. *)
Definition fetch_fails (w : world) (url : pystr) (e : exn) : Prop :=
  requests_get w url = Raises e
  \/ exists resp, requests_get w url = Returns resp
                  /\ status_error resp = Some e.

(** [writes m r segs]: on every window, [m] ends with [r] having appended
    [segs] to the output widget and touched nothing else. *)
Definition writes {A} (m : M A) (r : outcome A) (segs : list segment) : Prop :=
  forall g, m g = (r, window g (output_text g ++ segs) []).

(** [appends P m]: [m] only appends segments that satisfy [P], and ends
    normally or by raising (it has no [return] of its own). *)
Definition appends {A} (P : segment -> Prop) (m : M A) : Prop :=
  exists r segs, writes m r segs /\ r <> Returned /\ Forall P segs.


(** The four segments of the overview paragraph (lines 141-144), from what
    [title()], [yields()] and [description()] returned and the entries of
    the time loop. *)
Definition overview_segments (t y d : option pystr) (times : list pystr)
    (fb : bool) : list segment :=
  [ Seg (or_default t (lit "Recipe (title not found)") ++ [nl; nl])
        (Some Title);
    Seg (lit "Servings: " ++ or_default y (lit "N/A") ++ [nl]) (Some Heading);
    Seg (time_line times fb ++ [nl]) (Some Heading);
    Seg (lit "Notes: "
           ++ clip_description (or_default d (lit "No description available."))
           ++ [nl; nl])
        (Some Heading) ].

(** A segment of a paragraph: not the title line, not the fallback note,
    not an error. *)
Definition paragraph_segment (s : segment) : Prop :=
  seg_tag s <> Some Title /\ seg_tag s <> Some Note /\ seg_tag s <> Some Error.

(** No fallback note among [segs]. *)
Definition no_note (segs : list segment) : Prop :=
  Forall (fun s => seg_tag s <> Some Note) segs.

(** A title segment of [segs] can only be its first segment. *)
Definition title_first (segs : list segment) : Prop :=
  forall i s, nth_error segs i = Some s -> seg_tag s = Some Title -> i = 0%nat.

(** Every accessor of [sc] returns [None]; a time accessor may also be
    absent. *)
Definition returns_nothing (sc : scraper) : Prop :=
  title sc = Returns None
  /\ yields sc = Returns None
  /\ description sc = Returns None
  /\ ingredients sc = Returns None
  /\ instructions sc = Returns None
  /\ forall name, attr sc name = None \/ attr sc name = Some (Returns TNone).

(** [sc] without the attribute [name]. *)
Definition without (sc : scraper) (name : string) : scraper :=
  {| title := title sc; yields := yields sc; description := description sc;
     ingredients := ingredients sc; instructions := instructions sc;
     attr := fun n => if String.eqb n name then None else attr sc n |}.

(** The attributes of an object, from a table of names. *)
Definition by_name (table : list (string * call timeval)) (n : string)
    : option (call timeval) :=
  option_map snd (find (fun p => String.eqb n (fst p)) table).

(** A word character or a hyphen: what line 191 keeps besides
    whitespace. *)
Definition word_or_hyphen (c : N) : bool := isword c || (c =? hyphen).

(** The characters no line of 191-193 touches: those line 191 keeps that
    are neither whitespace nor the underscore. *)
Definition core (c : N) : bool :=
  negb (special_char c) && negb (isspace c) && negb (underscore =? c).

(** The class [[A-Za-z0-9_\s-]]. *)
Definition ascii_class (c : N) : bool :=
  in_range 65 90 c || in_range 97 122 c || in_range 48 57 c
  || (c =? underscore) || isspace c || (c =? hyphen).

(** The title after lines 191-193, before the substitute of line 196. *)
Definition stripped_title (title : pystr) : pystr :=
  strip_by (N.eqb underscore)
    (re_sub_runs isspace [underscore] (re_sub_class special_char [] title)).

Definition isdigit (c : N) : bool := in_range 48 57 c.

(** [n] decimal digits. *)
Definition digits (n : nat) (s : pystr) : Prop :=
  List.length s = n /\ forallb isdigit s = true.

Definition digitsb (n : nat) (s : pystr) : bool :=
  (List.length s =? n)%nat && forallb isdigit s.

(** What [datetime.now()] can return, from the year 1000 on. *)
Definition valid_datetime (now : datetime) : Prop :=
  1000 <= year now <= 9999
  /\ 1 <= month now <= 12
  /\ 1 <= day now <= 31
  /\ hour now <= 23
  /\ minute now <= 59.

(** A text without a line boundary. *)
Definition one_line (s : pystr) : Prop :=
  forallb (fun c => negb (islinebreak c)) s = true.

(** The body segment of one ingredient (line 151). *)
Definition bullet_line (item : pystr) : segment :=
  Seg ([bullet; 32] ++ strip item ++ [nl]) (Some Body).

(** The ingredients paragraph (lines 148-154), from what [ingredients()]
    returned. *)
Definition ingredient_segments (ing_list : option (list pystr))
    : list segment :=
  match ing_list with
  | Some ((_ :: _) as items) =>
      Seg (lit "Ingredients:" ++ [nl]) (Some Heading)
        :: map bullet_line items ++ [Seg [nl] None]
  | _ => [Seg (lit "Ingredients: (not found)" ++ [nl; nl]) (Some Heading)]
  end.

(** The body segment of one numbered step (line 162). *)
Definition numbered_step (p : nat * pystr) : segment :=
  Seg (str_of_N (N.of_nat (fst p)) ++ lit ". " ++ snd p ++ [nl]) (Some Body).

(** The part of the time line that one accessor contributes: nothing, or
    one entry that starts with the accessor's label. *)
Definition time_part (label : pystr) (part : list pystr) : Prop :=
  part = [] \/ exists v, part = [label ++ lit ": " ++ v].

(** The calls a run makes after the one to the native adapter: none; one
    fetch; or one fetch and the generic adapter on what it returned.  The
    fetch is made only after [WebsiteNotImplementedError]. *)
Definition fallback_calls (w : world) (url : pystr) (cs : list request)
    : Prop :=
  cs = []
  \/ exists e,
       scrape_me w url = Raises e
       /\ is_WebsiteNotImplementedError e = true
       /\ (cs = [RequestsGet url user_agent 12]
           \/ exists resp,
                requests_get w url = Returns resp
                /\ status_error resp = None
                /\ cs = [RequestsGet url user_agent 12;
                         ScrapeHtml (text resp) url]).

(** The title [save_and_open] takes from the window, and the name of the
    file when none of that name exists. *)
Definition title_to_save (g : gui) : pystr :=
  first_line_title (text_to_save g).

Definition base_name (g : gui) : pystr :=
  clean_title (title_to_save g) ++ lit ".txt".

(** A window whose widget holds the loading message and one of the three
    error segments of step 1, its message on one line. *)
Definition step1_failed (g : gui) : Prop :=
  exists e,
    one_line (msg e)
    /\ (output_text g = [Seg loading_message None; parsing_error e]
        \/ output_text g = [Seg loading_message None; could_not_load e]
        \/ output_text g = [Seg loading_message None; fallback_failed e]).

(** A character that a file name can hold on every platform the code
    opens files on: not "/", not a backslash, not NUL. *)
Definition in_file_name (c : N) : bool :=
  negb ((c =? 47) || (c =? 92) || (c =? 0)).

(** ** The file name, in the words of its description *)

(** A character the cleaning keeps: a word character in the sense of
    [\w] on a [str] (any alphanumeric of Unicode, or the underscore),
    whitespace, or a hyphen. *)
Definition kept_char (c : N) : bool :=
  isalnum c || (c =? underscore) || isspace c || (c =? hyphen).

(** Every maximal run of whitespace becomes one underscore: a whitespace
    character that another one follows is dropped, the last one of a run
    becomes the underscore. *)
Fixpoint collapse_whitespace (s : pystr) : pystr :=
  match s with
  | [] => []
  | c :: s' =>
      if isspace c then
        match s' with
        | d :: _ =>
            if isspace d then collapse_whitespace s'
            else underscore :: collapse_whitespace s'
        | [] => [underscore]
        end
      else c :: collapse_whitespace s'
  end.

(** Remove what is not kept, collapse the whitespace runs, trim the
    underscores at both ends, and take "edited_recipe" when nothing is
    left. *)
Definition sanitize (title : pystr) : pystr :=
  let s :=
    strip_by (N.eqb underscore)
      (collapse_whitespace (filter kept_char title)) in
  if is_empty s then lit "edited_recipe" else s.

(** The title of a Polish soup, with letters, ideographs and a digit from
    beyond Latin-1: "Zurek lodzki" with its diacritics (U+017B, U+0142,
    U+00F3), then U+5317 U+4EAC, then the Arabic-Indic digit three. *)
Definition zurek_title : pystr :=
  [379; 117; 114; 101; 107; 32; 322; 243; 100; 122; 107; 105; 32;
   21271; 20140; 32; 1635].

(** * Windows, worlds and scrapers of the examples *)

(** A window that shows an earlier summary; its entry holds a URL without
    a scheme, between blanks. *)
Definition stale_window : gui :=
  {| url_entry := lit " example.com/pie ";
     output_text := [Seg (lit "an earlier summary") None];
     dialogs := [];
     calls := [] |}.

(** The same, with only blanks in the entry. *)
Definition blank_entry_window : gui :=
  {| url_entry := [32; 9; 10];
     output_text := [Seg (lit "an earlier summary") None];
     dialogs := [];
     calls := [] |}.

Definition ftp_window : gui :=
  {| url_entry := lit "ftp://example.com/pie";
     output_text := [];
     dialogs := [];
     calls := [] |}.

Definition unsupported : exn :=
  Exn WebsiteNotImplementedError (lit "example.com is not supported").

Definition native_breaks : world :=
  {| scrape_me := fun _ => Raises (Exn AttributeError (lit "no schema"));
     requests_get := fun _ => Raises (Exn Timeout (lit "timed out"));
     scrape_html := fun _ _ => Raises (Exn OtherException (lit "unused")) |}.

Definition page_missing : world :=
  {| scrape_me := fun _ => Raises unsupported;
     requests_get := fun _ =>
       Returns {| status_error := Some (Exn HTTPError (lit "404 Not Found"));
                  text := lit "gone" |};
     scrape_html := fun _ _ => Raises (Exn OtherException (lit "unused")) |}.

Definition no_recipe_markup : world :=
  {| scrape_me := fun _ => Raises unsupported;
     requests_get := fun _ =>
       Returns {| status_error := None; text := lit "<html></html>" |};
     scrape_html := fun _ _ =>
       Raises (Exn OtherException (lit "no recipe found")) |}.

Definition native_returns (sc : scraper) : world :=
  {| scrape_me := fun _ => Returns sc;
     requests_get := fun _ => Raises (Exn Timeout (lit "timed out"));
     scrape_html := fun _ _ => Raises (Exn OtherException (lit "unused")) |}.

(** What the generic adapter extracts in the fallback scenario: the title
    "Test Pie", no time accessor, nothing else. *)
Definition test_pie : scraper :=
  {| title := Returns (Some (lit "Test Pie"));
     yields := Returns None;
     description := Returns None;
     ingredients := Returns None;
     instructions := Returns None;
     attr := fun _ => None |}.

Definition fallback_world : world :=
  {| scrape_me := fun _ => Raises unsupported;
     requests_get := fun _ =>
       Returns {| status_error := None; text := lit "<html>pie</html>" |};
     scrape_html := fun _ _ => Returns test_pie |}.

Definition test_pie_summary : list segment :=
  [ Seg (lit "Test Pie" ++ [nl; nl]) (Some Title);
    Seg (lit "Servings: N/A" ++ [nl]) (Some Heading);
    Seg (lit "Times not available (check original page)" ++ [nl])
        (Some Heading);
    Seg (lit "Notes: No description available." ++ [nl; nl]) (Some Heading);
    Seg (lit "Ingredients: (not found)" ++ [nl; nl]) (Some Heading);
    Seg (lit "Instructions: (not extracted " ++ [en_dash]
           ++ lit " see original site)" ++ [nl]) (Some Heading) ].

(** A scraper that has everything but a title. *)
Definition no_title : scraper :=
  {| title := Raises (Exn OtherException (lit "no title"));
     yields := Returns (Some (lit "8 servings"));
     description := Returns (Some (lit "A pie."));
     ingredients := Returns (Some [lit "2 apples"; lit "1 crust"]);
     instructions := Returns (Some (lit "Bake."));
     attr := fun _ => None |}.

(** A scraper whose [ingredients()] raises after the overview was read. *)
Definition no_ingredients : scraper :=
  {| title := Returns (Some (lit "Test Pie"));
     yields := Returns (Some (lit "8 servings"));
     description := Returns None;
     ingredients := Raises (Exn OtherException (lit "no ingredients"));
     instructions := Returns (Some (lit "Bake."));
     attr := fun _ => None |}.

(** A scraper whose [instructions()] raises [TypeError] after the
    ingredients were listed. *)
Definition no_instructions : scraper :=
  {| title := Returns (Some (lit "Test Pie"));
     yields := Returns None;
     description := Returns None;
     ingredients := Returns (Some [lit "2 apples"]);
     instructions := Raises (Exn TypeError (lit "no instructions"));
     attr := fun _ => None |}.

(** A scraper whose [total_time()] raises [ValueError]. *)
Definition bad_total_time : scraper :=
  {| title := Returns (Some (lit "Test Pie"));
     yields := Returns None;
     description := Returns None;
     ingredients := Returns None;
     instructions := Returns None;
     attr := by_name
       [ ("total_time"%string, Raises (Exn ValueError (lit "bad duration")));
         ("cooktime"%string, Returns (TInt 30)) ] |}.

Definition blank_scraper : scraper :=
  {| title := Returns None;
     yields := Returns None;
     description := Returns None;
     ingredients := Returns None;
     instructions := Returns None;
     attr := by_name [ ("total_time"%string, Returns TNone) ] |}.

(** A description of 650 letters "x". *)
Definition long_description : scraper :=
  {| title := Returns (Some (lit "Test Pie"));
     yields := Returns None;
     description := Returns (Some (repeat 120 650));
     ingredients := Returns None;
     instructions := Returns None;
     attr := fun _ => None |}.

(** A scraper with the time accessors of the [recipe_scrapers] interface:
    [total_time()] returns 45, [prep_time()] returns [None] and
    [cook_time()] returns "varies". *)
Definition timed_recipe : scraper :=
  {| title := Returns (Some (lit "Test Pie"));
     yields := Returns None;
     description := Returns None;
     ingredients := Returns None;
     instructions := Returns None;
     attr := by_name [ ("total_time"%string, Returns (TInt 45));
                       ("prep_time"%string, Returns TNone);
                       ("cook_time"%string, Returns (TStr (lit "varies"))) ] |}.

(** The same values under the names the loop asks for. *)
Definition timed_recipe_short_names : scraper :=
  {| title := Returns (Some (lit "Test Pie"));
     yields := Returns None;
     description := Returns None;
     ingredients := Returns None;
     instructions := Returns None;
     attr := by_name [ ("total_time"%string, Returns (TInt 45));
                       ("preptime"%string, Returns TNone);
                       ("cooktime"%string, Returns (TStr (lit "varies"))) ] |}.

Definition pie_exists (path : pystr) : bool :=
  startswith path (lit "Moms_Apple_Pie.txt").

Definition a_monday_morning : datetime :=
  {| year := 2026; month := 3; day := 9; hour := 7; minute := 5 |}.

(** A machine on which writing and opening succeed. *)
Definition linux_box : host :=
  {| datetime_now := a_monday_morning;
     sys_platform := OtherPlatform;
     write_file := fun _ _ => Wrote;
     launch_error := fun _ => None |}.

(** A machine without [xdg-open]. *)
Definition no_opener : host :=
  {| datetime_now := a_monday_morning;
     sys_platform := OtherPlatform;
     write_file := fun _ _ => Wrote;
     launch_error := fun _ =>
       Some (Exn OtherException (lit "No such file or directory: 'xdg-open'")) |}.

(** A machine whose working directory cannot be written. *)
Definition read_only : host :=
  {| datetime_now := a_monday_morning;
     sys_platform := Darwin;
     write_file := fun _ _ =>
       OpenFailed (Exn OtherException (lit "Permission denied"));
     launch_error := fun _ => None |}.

(** The window [g] on a desk with an empty working directory. *)
Definition fresh_desk (g : gui) : desk :=
  {| win := g; files := fun _ => None; boxes := []; launched := [] |}.

(** The window after the fallback scenario. *)
Definition pie_window : gui :=
  snd (summarize_recipe fallback_world stale_window).

(** A full recipe. *)
Definition apple_pie : scraper :=
  {| title := Returns (Some (lit "Mom's Apple Pie!"));
     yields := Returns (Some (lit "8 servings"));
     description := Returns (Some (lit "A family classic."));
     ingredients := Returns (Some [lit " 2 apples "; lit "1 crust"; []]);
     instructions :=
       Returns (Some (lit "Peel." ++ [nl; nl] ++ lit "  Bake. " ++ [13; nl]));
     attr := by_name
       [ ("total_time"%string, Returns (TFloat (Finite (181 # 2))));
         ("preptime"%string, Returns (TFloat NaN));
         ("cooktime"%string, Returns (TStr (lit "1 hour"))) ] |}.

(** A recipe whose title has letters from beyond Latin-1. *)
Definition zurek : scraper :=
  {| title := Returns (Some zurek_title);
     yields := Returns None;
     description := Returns (Some (repeat 120 120));
     ingredients := Returns None;
     instructions := Returns None;
     attr := fun _ => None |}.

(** A recipe whose total time is infinite. *)
Definition endless_pie : scraper :=
  {| title := Returns (Some (lit "Endless Pie"));
     yields := Returns None;
     description := Returns None;
     ingredients := Returns None;
     instructions := Returns None;
     attr := by_name
       [ ("total_time"%string, Returns (TFloat (Infinity false))) ] |}.

(** * Properties *)

(** ** Windows *)

Lemma window_same g : window g (output_text g) [] = g.
Proof. destruct g. unfold window; simpl. now rewrite app_nil_r. Qed.

Lemma window_window g out cs out' cs' :
  window (window g out cs) out' cs' = window g out' (cs ++ cs').
Proof. unfold window; simpl. now rewrite app_assoc. Qed.

Lemma window_append g segs segs' :
  window (window g (output_text g ++ segs) [])
         (output_text (window g (output_text g ++ segs) []) ++ segs') []
  = window g (output_text g ++ segs ++ segs') [].
Proof. unfold window; simpl. now rewrite !app_nil_r, app_assoc. Qed.

Lemma window_cleared g segs :
  window (window g [] []) (output_text (window g [] []) ++ segs) []
  = window g segs [].
Proof. unfold window; simpl. now rewrite !app_nil_r. Qed.

(** ** Trimming *)

Lemma dropwhile_all (p : N -> bool) (s : pystr) :
  forallb p s = true -> dropwhile p s = [].
Proof.
  induction s as [|c s IH]; simpl; [reflexivity|].
  intros H. apply andb_true_iff in H as [Hc Hs]. rewrite Hc. now apply IH.
Qed.

Lemma strip_whitespace_only (s : pystr) :
  forallb isspace s = true -> strip s = [].
Proof.
  intros H. unfold strip, strip_by, rstrip_by, lstrip_by.
  now rewrite (dropwhile_all _ _ H).
Qed.

Lemma startswith_app (p s : pystr) : startswith (p ++ s) p = true.
Proof.
  induction p as [|a p IH]; simpl; [reflexivity|].
  now rewrite N.eqb_refl, IH.
Qed.

(** ** The empty entry *)

(** C10.  When the entry is empty or holds only whitespace, a run shows the
    warning and returns: the output widget keeps its content, no library
    call (hence no network request) is made, and the entry is untouched. *)
Theorem blank_url_leaves_output_unchanged (w : world) (g : gui) :
  forallb isspace (url_entry g) = true ->
  summarize_recipe w g =
  (Normal tt,
   {| url_entry := url_entry g;
      output_text := output_text g;
      dialogs := dialogs g ++
        [ShowWarning (lit "Input Error") (lit "Please enter a recipe URL.")];
      calls := calls g |}).
Proof.
  intros H. unfold summarize_recipe, def, bind, url_entry_get.
  rewrite (strip_whitespace_only _ H). reflexivity.
Qed.

Lemma blank_url_leaves_output_unchanged_witness :
  output_text (snd (summarize_recipe native_breaks blank_entry_window))
    = [Seg (lit "an earlier summary") None]
  /\ calls (snd (summarize_recipe native_breaks blank_entry_window)) = [].
Proof.
  rewrite (blank_url_leaves_output_unchanged native_breaks blank_entry_window
             eq_refl).
  split; reflexivity.
Defined.

(** ** A run on a non-empty URL *)

(** The entry is trimmed and prefixed, the widget shows the loading
    message, and the two steps follow. *)
Lemma summarize_recipe_started (w : world) (g : gui) :
  is_empty (strip (url_entry g)) = false ->
  summarize_recipe w g =
  def (r <- step1 w (prefix_scheme (strip (url_entry g))) ;;
       let '(sc, fallback_used) := r in step2 sc fallback_used)
      (loading g).
Proof.
  intros H. unfold summarize_recipe, def, bind at 1, url_entry_get.
  rewrite H.
  unfold bind, output_delete_all, output_insert, update_idletasks, ret.
  unfold loading, window. simpl. now rewrite app_nil_r.
Qed.

Ltac run_step1 :=
  unfold step1, try_except, bind, library, of_call, raise, ret,
    raise_for_status, output_insert, return_.

(** ** The three terminal errors of step 1 *)

(** C4.  On a non-empty URL: an error of the native adapter other than
    [WebsiteNotImplementedError] ends the run with the "Parsing error"
    segment after the one call to the adapter (no fetch is made); under
    fallback a [RequestException] of the fetch ends it with "Could not
    load page", and an error of the generic adapter that is not a
    [RequestException] ends it with "Fallback failed".  The three messages
    differ whatever the exceptions' texts. *)
Theorem step1_errors_are_terminal (w : world) (g : gui) :
  is_empty (strip (url_entry g)) = false ->
  let url := prefix_scheme (strip (url_entry g)) in
  (forall e,
      scrape_me w url = Raises e ->
      is_WebsiteNotImplementedError e = false ->
      summarize_recipe w g =
      (Normal tt,
       window g [Seg loading_message None; parsing_error e] [ScrapeMe url]))
  /\ (forall e0 e,
      scrape_me w url = Raises e0 ->
      is_WebsiteNotImplementedError e0 = true ->
      fetch_fails w url e ->
      is_RequestException e = true ->
      summarize_recipe w g =
      (Normal tt,
       window g [Seg loading_message None; could_not_load e]
                [ScrapeMe url; RequestsGet url user_agent 12]))
  /\ (forall e0 resp e,
      scrape_me w url = Raises e0 ->
      is_WebsiteNotImplementedError e0 = true ->
      requests_get w url = Returns resp ->
      status_error resp = None ->
      scrape_html w (text resp) url = Raises e ->
      is_RequestException e = false ->
      summarize_recipe w g =
      (Normal tt,
       window g [Seg loading_message None; fallback_failed e]
                [ScrapeMe url; RequestsGet url user_agent 12;
                 ScrapeHtml (text resp) url]))
  /\ (forall e1 e2 e3,
      parsing_error e1 <> could_not_load e2
      /\ parsing_error e1 <> fallback_failed e3
      /\ could_not_load e2 <> fallback_failed e3).
Proof.
  intros Hurl url. repeat split.
  - intros e He Hcls.
    rewrite (summarize_recipe_started w g Hurl). fold url.
    unfold def, bind at 1. run_step1. simpl. rewrite He, Hcls.
    unfold window. simpl. now rewrite app_nil_r.
  - intros e0 e He0 Hcls Hfetch Hreq.
    rewrite (summarize_recipe_started w g Hurl). fold url.
    unfold def, bind at 1. run_step1. simpl. rewrite He0, Hcls.
    destruct Hfetch as [Hget | (resp & Hget & Hst)]; rewrite Hget; simpl.
    + rewrite Hreq. unfold window. simpl.
      now rewrite app_nil_r, <- app_assoc.
    + rewrite Hst. simpl. rewrite Hreq. unfold window. simpl.
      now rewrite app_nil_r, <- app_assoc.
  - intros e0 resp e He0 Hcls Hget Hst Hhtml Hreq.
    rewrite (summarize_recipe_started w g Hurl). fold url.
    unfold def, bind at 1. run_step1. simpl. rewrite He0, Hcls, Hget.
    simpl. rewrite Hst, Hhtml. simpl. rewrite Hreq. unfold window. simpl.
    now rewrite app_nil_r, <- !app_assoc.
  - discriminate.
  - discriminate.
  - discriminate.
Qed.

Lemma step1_errors_are_terminal_witness :
  (output_text (snd (summarize_recipe native_breaks stale_window))
     = [Seg loading_message None;
        parsing_error (Exn AttributeError (lit "no schema"))]
   /\ calls (snd (summarize_recipe native_breaks stale_window))
     = [ScrapeMe (lit "https://example.com/pie")])
  /\ output_text (snd (summarize_recipe page_missing stale_window))
     = [Seg loading_message None;
        could_not_load (Exn HTTPError (lit "404 Not Found"))]
  /\ output_text (snd (summarize_recipe no_recipe_markup stale_window))
     = [Seg loading_message None;
        fallback_failed (Exn OtherException (lit "no recipe found"))].
Proof.
  destruct (step1_errors_are_terminal native_breaks stale_window eq_refl)
    as (Hnative & _).
  destruct (step1_errors_are_terminal page_missing stale_window eq_refl)
    as (_ & Hfetch & _).
  destruct (step1_errors_are_terminal no_recipe_markup stale_window eq_refl)
    as (_ & _ & Hparse & _).
  rewrite (Hnative _ eq_refl eq_refl).
  rewrite (Hfetch unsupported (Exn HTTPError (lit "404 Not Found")) eq_refl
             eq_refl (or_intror (ex_intro _ _ (conj eq_refl eq_refl)))
             eq_refl).
  rewrite (Hparse unsupported _ _ eq_refl eq_refl eq_refl eq_refl eq_refl
             eq_refl).
  repeat split; reflexivity.
Defined.

(** ** Statements that only append to the output *)

Lemma writes_ret {A} (a : A) : writes (ret a) (Normal a) [].
Proof. intros g. unfold ret. now rewrite app_nil_r, window_same. Qed.

Lemma writes_raise {A} (e : exn) : writes (@raise A e) (Raised e) [].
Proof. intros g. unfold raise. now rewrite app_nil_r, window_same. Qed.

Lemma writes_insert t tg :
  writes (output_insert t tg) (Normal tt) [Seg t tg].
Proof.
  intros g. unfold output_insert, window. simpl. now rewrite app_nil_r.
Qed.

Lemma writes_bind {A B} (m : M A) (k : A -> M B) a s1 r s2 :
  writes m (Normal a) s1 -> writes (k a) r s2 ->
  writes (bind m k) r (s1 ++ s2).
Proof.
  intros Hm Hk g. unfold bind. rewrite Hm, Hk. now rewrite window_append.
Qed.

Lemma writes_bind_raised {A B} (m : M A) (k : A -> M B) e s :
  writes m (Raised e) s -> writes (bind m k) (Raised e) s.
Proof. intros Hm g. unfold bind. now rewrite Hm. Qed.

Lemma writes_try_normal {A} (m : M A) (h : exn -> M A) a s :
  writes m (Normal a) s -> writes (try_except m h) (Normal a) s.
Proof. intros Hm g. unfold try_except. now rewrite Hm. Qed.

Lemma writes_try_raised {A} (m : M A) (h : exn -> M A) e s1 r s2 :
  writes m (Raised e) s1 -> writes (h e) r s2 ->
  writes (try_except m h) r (s1 ++ s2).
Proof.
  intros Hm Hh g. unfold try_except. rewrite Hm, Hh.
  now rewrite window_append.
Qed.

Lemma for_each_writes {A} (xs : list A) (body : A -> M unit)
    (seg : A -> segment) :
  (forall x, writes (body x) (Normal tt) [seg x]) ->
  writes (for_each xs body) (Normal tt) (map seg xs).
Proof.
  intros Hbody. unfold for_each.
  induction xs as [|x xs IH]; cbn [for_fold map]; [apply writes_ret|].
  apply (writes_bind (body x) _ tt [seg x] _ (map seg xs) (Hbody x)).
  exact IH.
Qed.

Section Appends.

Variable P : segment -> Prop.

Lemma appends_ret {A} (a : A) : appends P (ret a).
Proof.
  exists (Normal a), []. split; [apply writes_ret|]. split; [discriminate|].
  constructor.
Qed.

Lemma appends_raise {A} (e : exn) : appends P (@raise A e).
Proof.
  exists (Raised e), []. split; [apply writes_raise|].
  split; [discriminate|]. constructor.
Qed.

Lemma appends_of_call {A} (c : call A) : appends P (of_call c).
Proof. destruct c; [apply appends_ret | apply appends_raise]. Qed.

Lemma appends_insert t tg : P (Seg t tg) -> appends P (output_insert t tg).
Proof.
  intros H. exists (Normal tt), [Seg t tg]. split; [apply writes_insert|].
  split; [discriminate|]. now repeat constructor.
Qed.

Lemma appends_bind {A B} (m : M A) (k : A -> M B) :
  appends P m -> (forall a, appends P (k a)) -> appends P (bind m k).
Proof.
  intros (r & s1 & Hm & Hr & Hs1) Hk. destruct r as [a | e |].
  - destruct (Hk a) as (r & s2 & Hka & Hr2 & Hs2).
    exists r, (s1 ++ s2). split; [eapply writes_bind; eassumption|].
    split; [assumption|]. apply Forall_app. now split.
  - exists (Raised e), s1. split; [now apply writes_bind_raised|].
    split; [discriminate | assumption].
  - now contradiction Hr.
Qed.

Lemma appends_try {A} (m : M A) (h : exn -> M A) :
  appends P m -> (forall e, appends P (h e)) -> appends P (try_except m h).
Proof.
  intros (r & s1 & Hm & Hr & Hs1) Hh. destruct r as [a | e |].
  - exists (Normal a), s1. split; [now apply writes_try_normal|].
    split; [discriminate | assumption].
  - destruct (Hh e) as (r & s2 & Hhe & Hr2 & Hs2).
    exists r, (s1 ++ s2). split; [eapply writes_try_raised; eassumption|].
    split; [assumption|]. apply Forall_app. now split.
  - now contradiction Hr.
Qed.

Lemma appends_for_fold {A S} (xs : list A) (body : S -> A -> M S) :
  (forall s x, appends P (body s x)) ->
  forall s, appends P (for_fold xs body s).
Proof.
  intros Hbody. induction xs as [|x xs IH]; intros s; simpl.
  - apply appends_ret.
  - apply appends_bind; [apply Hbody | exact IH].
Qed.

Lemma appends_for_each {A} (xs : list A) (body : A -> M unit) :
  (forall x, appends P (body x)) -> appends P (for_each xs body).
Proof. intros H. apply appends_for_fold. intros _ x. apply H. Qed.

End Appends.

Ltac appends_step :=
  first
    [ apply appends_ret
    | apply appends_raise
    | apply appends_of_call
    | apply appends_insert; repeat split; discriminate
    | apply appends_bind
    | apply appends_try
    | apply appends_for_each
    | apply appends_for_fold
    | intro
    | match goal with
      | |- appends _ (match ?x with _ => _ end) => destruct x
      end ].

(** ** Step 2 *)

(** The time loop leaves the window alone. *)
Lemma time_loop_pure (sc : scraper) :
  exists r, r <> Returned /\ forall g,
    for_fold time_methods (time_entry sc) [] g = (r, g).
Proof.
  assert (H : appends (fun _ => False)
                (for_fold time_methods (time_entry sc) [])).
  { apply appends_for_fold. intros times m. unfold time_entry.
    repeat appends_step. }
  destruct H as (r & segs & Hw & Hr & Hsegs). exists r.
  split; [exact Hr|]. intros g.
  destruct segs as [|s segs]; [|now inversion Hsegs].
  rewrite Hw. now rewrite app_nil_r, window_same.
Qed.

(** The overview paragraph, when its reads raise nothing: four segments. *)
Lemma overview_writes sc fb t y d times :
  title sc = Returns t ->
  yields sc = Returns y ->
  description sc = Returns d ->
  (forall g, for_fold time_methods (time_entry sc) [] g = (Normal times, g)) ->
  writes (overview_paragraph sc fb) (Normal tt)
         (overview_segments t y d times fb).
Proof.
  intros Ht Hy Hd Hloop g. unfold overview_paragraph, bind.
  rewrite Ht, Hy, Hd. cbn [of_call ret]. rewrite Hloop.
  unfold output_insert, window, overview_segments.
  cbn [output_text url_entry dialogs calls].
  now rewrite app_nil_r, <- !app_assoc.
Qed.

(** The overview paragraph writes its four segments, or raises before it
    has written any: all its reads come before its inserts. *)
Lemma overview_cases sc fb :
  (exists t y d times,
      title sc = Returns t /\ yields sc = Returns y
      /\ description sc = Returns d
      /\ (forall g, for_fold time_methods (time_entry sc) [] g
                    = (Normal times, g))
      /\ writes (overview_paragraph sc fb) (Normal tt)
                (overview_segments t y d times fb))
  \/ (exists e, writes (overview_paragraph sc fb) (Raised e) []).
Proof.
  destruct (time_loop_pure sc) as (r & Hr & Hloop).
  destruct (title sc) as [t | e] eqn:Ht.
  2:{ right. exists e. intros g. unfold overview_paragraph, bind.
      rewrite Ht. cbn [of_call raise]. now rewrite app_nil_r, window_same. }
  destruct (yields sc) as [y | e] eqn:Hy.
  2:{ right. exists e. intros g. unfold overview_paragraph, bind.
      rewrite Ht, Hy. cbn [of_call raise ret].
      now rewrite app_nil_r, window_same. }
  destruct (description sc) as [d | e] eqn:Hd.
  2:{ right. exists e. intros g. unfold overview_paragraph, bind.
      rewrite Ht, Hy, Hd. cbn [of_call raise ret].
      now rewrite app_nil_r, window_same. }
  destruct r as [times | e |].
  - left. exists t, y, d, times. repeat (split; [assumption || reflexivity|]).
    now apply overview_writes.
  - right. exists e. intros g. unfold overview_paragraph, bind.
    rewrite Ht, Hy, Hd. cbn [of_call raise ret]. rewrite Hloop.
    now rewrite app_nil_r, window_same.
  - now contradiction Hr.
Qed.

Lemma paragraphs_append sc :
  appends paragraph_segment
    (ingredients_paragraph sc ;; instructions_paragraph sc).
Proof.
  unfold ingredients_paragraph, instructions_paragraph.
  repeat appends_step.
Qed.


Lemma build_summary_clears sc fb g :
  build_summary sc fb g = write_summary sc fb (window g [] []).
Proof.
  unfold build_summary, bind, output_delete_all, window. simpl.
  now rewrite app_nil_r.
Qed.

Lemma title_first_cons s rest :
  Forall (fun x => seg_tag x <> Some Title) rest -> title_first (s :: rest).
Proof.
  intros H i x Hnth Htitle. destruct i as [|i]; [reflexivity|].
  simpl in Hnth. apply nth_error_In in Hnth.
  rewrite Forall_forall in H. now destruct (H x Hnth).
Qed.

(** Step 2 always ends normally.  What it leaves in the widget does not
    depend on the window it started from; it holds no fallback note, and
    a title segment only in the first place. *)
Lemma step2_shape sc fb :
  exists segs,
    (forall g, step2 sc fb g = (Normal tt, window g segs []))
    /\ no_note segs /\ title_first segs.
Proof.
  destruct (overview_cases sc fb)
    as [(t & y & d & times & _ & _ & _ & _ & Hover) | (e & Hover)].
  - destruct (paragraphs_append sc) as (r & more & Hmore & Hr & Hpar).
    pose proof (writes_bind (overview_paragraph sc fb)
                  (fun _ => ingredients_paragraph sc ;;
                            instructions_paragraph sc)
                  tt _ _ _ Hover Hmore) as Hall.
    assert (Hnote : no_note more)
      by (eapply Forall_impl; [|exact Hpar]; intros s (_ & Hs & _); exact Hs).
    assert (Htitle : Forall (fun x => seg_tag x <> Some Title) more)
      by (eapply Forall_impl; [|exact Hpar]; intros s (Hs & _); exact Hs).
    destruct r as [[] | e |]; [| | now contradiction Hr].
    + exists (overview_segments t y d times fb ++ more). split; [|split].
      * intros g. unfold step2, try_except.
        rewrite build_summary_clears. unfold write_summary.
        now rewrite Hall, window_cleared.
      * apply Forall_app. split; [|exact Hnote].
        repeat constructor; discriminate.
      * apply title_first_cons. cbn [app].
        repeat (constructor; [discriminate|]). exact Htitle.
    + exists (overview_segments t y d times fb ++ more ++ [parsing_issue e]).
      split; [|split].
      * intros g. unfold step2, try_except.
        rewrite build_summary_clears. unfold write_summary.
        rewrite Hall, window_cleared.
        unfold output_insert, window, parsing_issue. simpl.
        now rewrite ?app_nil_r, <- ?app_assoc.
      * apply Forall_app. split; [repeat constructor; discriminate|].
        apply Forall_app. split; [exact Hnote|].
        repeat constructor; discriminate.
      * apply title_first_cons. cbn [app].
        repeat (constructor; [discriminate|]).
        apply Forall_app. split; [exact Htitle|].
        repeat constructor; discriminate.
  - exists [parsing_issue e]. split; [|split].
    + intros g. unfold step2, try_except.
      rewrite build_summary_clears. unfold write_summary.
      rewrite (writes_bind_raised _ _ _ _ Hover), window_cleared.
      unfold output_insert, window, parsing_issue. simpl.
      now rewrite !app_nil_r.
    + repeat constructor; discriminate.
    + apply title_first_cons. constructor.
Qed.



(** ** How step 1 ends *)

(** Step 1 first calls the native adapter on [url].  It ends normally with
    a scraper and the flag, having appended the fallback note exactly when
    the flag is set, or it returns from the function after one error
    segment. *)
Lemma step1_cases (w : world) (url : pystr) :
  exists cs,
    (exists (sc : scraper) (fb : bool), forall g,
        step1 w url g
        = (Normal (sc, fb),
           window g (output_text g ++
                       (if fb then [Seg fallback_note (Some Note)] else []))
                  (ScrapeMe url :: cs)))
    \/ (exists t, forall g,
        step1 w url g
        = (Returned,
           window g (output_text g ++ [Seg t (Some Error)])
                  (ScrapeMe url :: cs))).
Proof.
  run_step1. simpl.
  destruct (scrape_me w url) as [sc | e]; simpl.
  { exists (@nil request). left. exists sc, false. intros g.
    unfold window. simpl. now rewrite app_nil_r. }
  destruct (is_WebsiteNotImplementedError e).
  2:{ exists (@nil request). right. eexists. intros g.
      unfold window. simpl. reflexivity. }
  destruct (requests_get w url) as [resp | e1]; simpl.
  2:{ exists [RequestsGet url user_agent 12]. right.
      destruct (is_RequestException e1); eexists; intros g;
        unfold window; simpl; rewrite <- app_assoc; reflexivity. }
  destruct (status_error resp) as [e2 |]; simpl.
  { exists [RequestsGet url user_agent 12]. right.
    destruct (is_RequestException e2); eexists; intros g;
      unfold window; simpl; rewrite <- app_assoc; reflexivity. }
  destruct (scrape_html w (text resp) url) as [sc | e3]; simpl.
  - exists [RequestsGet url user_agent 12; ScrapeHtml (text resp) url].
    left. exists sc, true. intros g. unfold window. simpl.
    now rewrite <- !app_assoc.
  - exists [RequestsGet url user_agent 12; ScrapeHtml (text resp) url].
    right.
    destruct (is_RequestException e3); eexists; intros g;
      unfold window; simpl; rewrite <- !app_assoc; reflexivity.
Qed.

(** A run on the non-empty trimmed entry [u], in full: the call to the
    native adapter on the prefixed URL comes first; the widget ends with
    segments that depend on [u] and the libraries' outcomes only, among
    them no fallback note, and a title segment only in the first place. *)
Lemma summarize_recipe_run (w : world) (u : pystr) :
  is_empty u = false ->
  exists segs cs,
    (forall g, strip (url_entry g) = u ->
       summarize_recipe w g
       = (Normal tt, window g segs (ScrapeMe (prefix_scheme u) :: cs)))
    /\ no_note segs /\ title_first segs.
Proof.
  intros Hu.
  destruct (step1_cases w (prefix_scheme u))
    as (cs & [(sc & fb & H1) | (t & H1)]).
  - destruct (step2_shape sc fb) as (segs & H2 & Hnote & Htitle).
    exists segs, cs. split; [|now split].
    intros g Hg. rewrite summarize_recipe_started by now rewrite Hg.
    rewrite Hg. unfold def, bind. rewrite H1, H2.
    unfold loading. now rewrite !window_window, app_nil_r.
  - exists [Seg loading_message None; Seg t (Some Error)], cs.
    split; [|split].
    + intros g Hg. rewrite summarize_recipe_started by now rewrite Hg.
      rewrite Hg. unfold def, bind. rewrite H1.
      unfold loading. now rewrite window_window.
    + repeat constructor; discriminate.
    + apply title_first_cons. repeat constructor. discriminate.
Qed.

Lemma summarize_recipe_blank (w : world) (g : gui) :
  is_empty (strip (url_entry g)) = true ->
  summarize_recipe w g =
  (Normal tt,
   {| url_entry := url_entry g;
      output_text := output_text g;
      dialogs := dialogs g ++
        [ShowWarning (lit "Input Error") (lit "Please enter a recipe URL.")];
      calls := calls g |}).
Proof.
  intros H. unfold summarize_recipe, def, bind, url_entry_get.
  now rewrite H.
Qed.

(** The handler never raises, whatever the libraries do. *)
Lemma summarize_recipe_ends_normally (w : world) (g : gui) :
  fst (summarize_recipe w g) = Normal tt.
Proof.
  destruct (is_empty (strip (url_entry g))) eqn:Hurl.
  - now rewrite summarize_recipe_blank.
  - destruct (summarize_recipe_run w _ Hurl) as (segs & cs & H & _).
    now rewrite (H g eq_refl).
Qed.

(** The fallback note of line 89 is never in the widget when a run on a
    non-empty URL ends: line 104 clears it with the loading message. *)
Lemma fallback_note_is_never_shown (w : world) (g : gui) :
  is_empty (strip (url_entry g)) = false ->
  no_note (output_text (snd (summarize_recipe w g))).
Proof.
  intros Hurl.
  destruct (summarize_recipe_run w _ Hurl) as (segs & cs & H & Hsegs & _).
  now rewrite (H g eq_refl).
Qed.

(** X4.  After a run on a non-empty URL a title segment, if there is
    one, is the first segment of the widget: the first line is the
    title. *)
Lemma title_segment_comes_first (w : world) (g : gui) :
  is_empty (strip (url_entry g)) = false ->
  title_first (output_text (snd (summarize_recipe w g))).
Proof.
  intros Hurl.
  destruct (summarize_recipe_run w _ Hurl) as (segs & cs & H & _ & Hsegs).
  now rewrite (H g eq_refl).
Qed.

Lemma title_segment_comes_first_witness :
  hd_error (output_text (snd (summarize_recipe fallback_world stale_window)))
  = Some (Seg (lit "Test Pie" ++ [nl; nl]) (Some Title))
  /\ title_first
       (output_text (snd (summarize_recipe fallback_world stale_window))).
Proof.
  split; [vm_compute; reflexivity|].
  apply (title_segment_comes_first fallback_world stale_window).
  vm_compute. reflexivity.
Defined.

(** X1.  Running the handler again, on the window the first run left and
    with the libraries answering the same, leaves the same output. *)
Lemma summarize_recipe_twice (w : world) (g : gui) :
  output_text (snd (summarize_recipe w (snd (summarize_recipe w g))))
  = output_text (snd (summarize_recipe w g)).
Proof.
  destruct (is_empty (strip (url_entry g))) eqn:Hurl.
  - rewrite (summarize_recipe_blank w g Hurl). cbn [snd].
    now rewrite summarize_recipe_blank.
  - destruct (summarize_recipe_run w _ Hurl) as (segs & cs & H & _).
    rewrite (H g eq_refl). cbn [snd].
    now rewrite (H (window g segs _) eq_refl).
Qed.

(** ** The URL the adapter receives *)

(** C8, as the code has it.  On a non-empty entry the first library call
    of a run is the native adapter's, on the trimmed entry [u] itself when
    [u] starts with "http://" or "https://" and on "https://" followed by
    [u] otherwise; either way what the adapter receives starts with one of
    these two prefixes. *)
Theorem url_passed_to_adapter (w : world) (g : gui) :
  is_empty (strip (url_entry g)) = false ->
  let u := strip (url_entry g) in
  let has_http :=
    startswith u (lit "http://") || startswith u (lit "https://") in
  exists url rest,
    calls (snd (summarize_recipe w g)) = calls g ++ ScrapeMe url :: rest
    /\ url = (if has_http then u else lit "https://" ++ u)
    /\ startswith url (lit "http://") || startswith url (lit "https://")
       = true.
Proof.
  intros Hurl u has_http.
  destruct (summarize_recipe_run w u Hurl) as (segs & cs & H & _).
  exists (prefix_scheme u), cs. rewrite (H g eq_refl).
  split; [reflexivity|].
  unfold prefix_scheme, startswith_any. cbn [existsb].
  rewrite orb_false_r. fold has_http.
  destruct has_http eqn:E; cbn [negb].
  - split; [reflexivity | exact E].
  - split; [reflexivity|].
    rewrite (startswith_app (lit "https://") u). apply orb_true_r.
Qed.

Lemma url_passed_to_adapter_witness :
  exists rest,
    calls (snd (summarize_recipe native_breaks stale_window))
    = ScrapeMe (lit "https://example.com/pie") :: rest.
Proof.
  destruct (url_passed_to_adapter native_breaks stale_window eq_refl)
    as (url & rest & Hcalls & Hurl & _).
  exists rest. rewrite Hcalls, Hurl. reflexivity.
Defined.

(** C8, as stated, fails: an entry that carries the scheme "ftp" is not
    passed through unchanged; the adapter receives it behind "https://". *)
Lemma other_scheme_is_prefixed :
  calls (snd (summarize_recipe native_breaks ftp_window))
  = [ScrapeMe (lit "https://ftp://example.com/pie")].
Proof. reflexivity. Qed.

(** ** The guards of step 2 *)

Lemma for_fold_ext {A S} (xs : list A) (body body' : S -> A -> M S) :
  (forall s x g, body s x g = body' s x g) ->
  forall s g, for_fold xs body s g = for_fold xs body' s g.
Proof.
  intros H. induction xs as [|x xs IH]; intros s g; simpl; [reflexivity|].
  unfold bind. rewrite H. destruct (body' s x g) as [[s' | e |] g'];
    [apply IH | reflexivity | reflexivity].
Qed.

(** A time accessor that raises [TypeError] or [ValueError] counts for
    nothing in its turn of the loop, as an absent one does. *)
Lemma time_entry_guard sc name e times m g :
  attr sc name = Some (Raises e) ->
  is_TypeError e || is_ValueError e = true ->
  time_entry sc times m g = time_entry (without sc name) times m g.
Proof.
  intros Hattr Hcls. destruct m as [method_name label].
  unfold time_entry, without. cbn [attr].
  destruct (String.eqb method_name name) eqn:E; [|reflexivity].
  apply String.eqb_eq in E. subst method_name. rewrite Hattr.
  unfold try_except, bind, of_call, raise. now rewrite Hcls.
Qed.

Lemma step2_without sc name e fb g :
  attr sc name = Some (Raises e) ->
  is_TypeError e || is_ValueError e = true ->
  step2 sc fb g = step2 (without sc name) fb g.
Proof.
  intros Hattr Hcls.
  unfold step2, try_except, build_summary, write_summary, overview_paragraph,
    ingredients_paragraph, instructions_paragraph, bind, output_delete_all.
  cbn [title yields description ingredients instructions without].
  destruct (of_call (title sc) _) as [[t | e1 |] g1]; try reflexivity.
  destruct (of_call (yields sc) g1) as [[y | e2 |] g2]; try reflexivity.
  destruct (of_call (description sc) g2) as [[d | e3 |] g3]; try reflexivity.
  rewrite (for_fold_ext time_methods (time_entry sc)
             (time_entry (without sc name))
             (fun s x g0 => time_entry_guard sc name e s x g0 Hattr Hcls)).
  reflexivity.
Qed.

(** C3, as stated, fails: when [title()] raises, none of the other
    fields is rendered, though each of them is there: the widget ends
    with the error segment alone. *)
Lemma title_error_hides_other_fields :
  output_text (snd (summarize_recipe (native_returns no_title) stale_window))
  = [parsing_issue (Exn OtherException (lit "no title"))].
Proof. reflexivity. Qed.

(** When the three paragraphs raise [e] having written [segs], step 2
    ends with [segs] and the error segment. *)
Lemma step2_raised sc fb e segs :
  writes (write_summary sc fb) (Raised e) segs ->
  forall g, step2 sc fb g = (Normal tt, window g (segs ++ [parsing_issue e]) []).
Proof.
  intros Hall g. unfold step2, try_except. rewrite build_summary_clears.
  rewrite Hall, window_cleared.
  unfold output_insert, window, parsing_issue. simpl.
  now rewrite ?app_nil_r.
Qed.

Lemma ingredients_paragraph_writes sc items :
  ingredients sc = Returns items ->
  writes (ingredients_paragraph sc) (Normal tt) (ingredient_segments items).
Proof.
  intros H. unfold ingredients_paragraph. rewrite H.
  apply (writes_bind _ _ items [] _ _ (writes_ret _)).
  destruct items as [[|item items]|]; cbn [ingredient_segments];
    try apply writes_insert.
  apply (writes_bind _ _ tt [_] _ (_ ++ [_]) (writes_insert _ _)).
  apply (writes_bind _ _ tt _ _ [_]).
  - apply for_each_writes. intros x. apply writes_insert.
  - apply writes_insert.
Qed.

Lemma paragraph_raises {A} (c : call A) (k : A -> M unit) e :
  c = Raises e -> writes (x <- of_call c ;; k x) (Raised e) [].
Proof. intros ->. apply writes_bind_raised, writes_raise. Qed.

(** C3, as the code has it.  The handler never raises.  Of the accessors,
    only the time accessors have a guard of their own: one that raises
    [TypeError] or [ValueError] is passed over, and the run is the run on
    the scraper without it.  The others stand under the one handler of
    step 2, and what comes after the one that raises is not extracted.
    When [title()], [yields()] or [description()] raises, the widget ends
    with the error segment alone.  When [ingredients()] raises, whatever
    the exception, it ends with the overview and the error segment:
    [instructions()] is not read.  When [instructions()] raises, whatever
    the exception, it ends with the overview, the ingredients and the
    error segment. *)
Theorem only_time_accessors_are_guarded :
  (forall w g, fst (summarize_recipe w g) = Normal tt)
  /\ (forall sc name e fb g,
        attr sc name = Some (Raises e) ->
        is_TypeError e || is_ValueError e = true ->
        step2 sc fb g = step2 (without sc name) fb g)
  /\ (forall sc fb g e,
        title sc = Raises e
        \/ (exists t, title sc = Returns t /\ yields sc = Raises e)
        \/ (exists t y, title sc = Returns t /\ yields sc = Returns y
                        /\ description sc = Raises e) ->
        step2 sc fb g = (Normal tt, window g [parsing_issue e] []))
  /\ (forall sc fb g e t y d times,
        title sc = Returns t ->
        yields sc = Returns y ->
        description sc = Returns d ->
        fst (for_fold time_methods (time_entry sc) [] g) = Normal times ->
        ingredients sc = Raises e ->
        step2 sc fb g
        = (Normal tt,
           window g (overview_segments t y d times fb ++ [parsing_issue e])
                  []))
  /\ (forall sc fb g e t y d times items,
        title sc = Returns t ->
        yields sc = Returns y ->
        description sc = Returns d ->
        fst (for_fold time_methods (time_entry sc) [] g) = Normal times ->
        ingredients sc = Returns items ->
        instructions sc = Raises e ->
        step2 sc fb g
        = (Normal tt,
           window g (overview_segments t y d times fb
                       ++ ingredient_segments items ++ [parsing_issue e])
                  [])).
Proof.
  split; [exact summarize_recipe_ends_normally|].
  split; [exact step2_without|].
  split; [|split].
  - intros sc fb g e H.
    unfold step2, try_except, build_summary, write_summary,
      overview_paragraph, bind, output_delete_all, of_call, raise, ret.
    destruct H as [Ht | [(t & Ht & Hy) | (t & y & Ht & Hy & Hd)]].
    + rewrite Ht. unfold output_insert, window. simpl. now rewrite app_nil_r.
    + rewrite Ht, Hy. unfold output_insert, window. simpl.
      now rewrite app_nil_r.
    + rewrite Ht, Hy, Hd. unfold output_insert, window. simpl.
      now rewrite app_nil_r.
  - intros sc fb g e t y d times Ht Hy Hd Htimes Hing.
    destruct (time_loop_pure sc) as (r & _ & Hloop).
    rewrite Hloop in Htimes. cbn [fst] in Htimes. subst r.
    pose proof (overview_writes sc fb t y d times Ht Hy Hd Hloop) as Hover.
    rewrite (step2_raised sc fb e (overview_segments t y d times fb));
      [reflexivity|].
    unfold write_summary.
    rewrite <- (app_nil_r (overview_segments t y d times fb)).
    apply (writes_bind _ _ tt _ _ _ Hover).
    apply writes_bind_raised. unfold ingredients_paragraph.
    now apply paragraph_raises.
  - intros sc fb g e t y d times items Ht Hy Hd Htimes Hing Hins.
    destruct (time_loop_pure sc) as (r & _ & Hloop).
    rewrite Hloop in Htimes. cbn [fst] in Htimes. subst r.
    pose proof (overview_writes sc fb t y d times Ht Hy Hd Hloop) as Hover.
    rewrite (step2_raised sc fb e
               (overview_segments t y d times fb ++ ingredient_segments items));
      [now rewrite <- app_assoc|].
    unfold write_summary.
    apply (writes_bind _ _ tt _ _ _ Hover).
    rewrite <- (app_nil_r (ingredient_segments items)).
    apply (writes_bind _ _ tt _ _ _
             (ingredients_paragraph_writes sc items Hing)).
    unfold instructions_paragraph. now apply paragraph_raises.
Qed.

Lemma only_time_accessors_are_guarded_witness :
  output_text (snd (step2 bad_total_time false stale_window))
  = [ Seg (lit "Test Pie" ++ [nl; nl]) (Some Title);
      Seg (lit "Servings: N/A" ++ [nl]) (Some Heading);
      Seg (lit "Cook: 30 min" ++ [nl]) (Some Heading);
      Seg (lit "Notes: No description available." ++ [nl; nl]) (Some Heading);
      Seg (lit "Ingredients: (not found)" ++ [nl; nl]) (Some Heading);
      Seg (lit "Instructions: (not extracted " ++ [en_dash]
             ++ lit " see original site)" ++ [nl]) (Some Heading) ]
  /\ step2 no_title true stale_window
     = (Normal tt,
        window stale_window
          [parsing_issue (Exn OtherException (lit "no title"))] [])
  /\ output_text (snd (step2 no_ingredients false stale_window))
     = [ Seg (lit "Test Pie" ++ [nl; nl]) (Some Title);
         Seg (lit "Servings: 8 servings" ++ [nl]) (Some Heading);
         Seg (lit "Times not available" ++ [nl]) (Some Heading);
         Seg (lit "Notes: No description available." ++ [nl; nl])
             (Some Heading);
         parsing_issue (Exn OtherException (lit "no ingredients")) ]
  /\ output_text (snd (step2 no_instructions false stale_window))
     = [ Seg (lit "Test Pie" ++ [nl; nl]) (Some Title);
         Seg (lit "Servings: N/A" ++ [nl]) (Some Heading);
         Seg (lit "Times not available" ++ [nl]) (Some Heading);
         Seg (lit "Notes: No description available." ++ [nl; nl])
             (Some Heading);
         Seg (lit "Ingredients:" ++ [nl]) (Some Heading);
         Seg ([bullet; 32] ++ lit "2 apples" ++ [nl]) (Some Body);
         Seg [nl] None;
         parsing_issue (Exn TypeError (lit "no instructions")) ].
Proof.
  destruct only_time_accessors_are_guarded
    as (_ & Hguard & Hother & Hing & Hins).
  rewrite (Hguard bad_total_time "total_time"%string
             (Exn ValueError (lit "bad duration")) false stale_window
             eq_refl eq_refl).
  rewrite (Hother no_title true stale_window
             (Exn OtherException (lit "no title")) (or_introl eq_refl)).
  rewrite (Hing no_ingredients false stale_window
             (Exn OtherException (lit "no ingredients"))
             (Some (lit "Test Pie")) (Some (lit "8 servings")) None []
             eq_refl eq_refl eq_refl eq_refl eq_refl).
  rewrite (Hins no_instructions false stale_window
             (Exn TypeError (lit "no instructions"))
             (Some (lit "Test Pie")) None None [] (Some [lit "2 apples"])
             eq_refl eq_refl eq_refl eq_refl eq_refl eq_refl).
  repeat split; reflexivity.
Defined.

(** ** Defaults *)

Lemma time_entry_nothing sc times m g :
  (forall name, attr sc name = None \/ attr sc name = Some (Returns TNone)) ->
  time_entry sc times m g = (Normal times, g).
Proof.
  intros H. destruct m as [method_name label]. unfold time_entry.
  destruct (H method_name) as [-> | ->]; reflexivity.
Qed.

Lemma time_loop_nothing sc g :
  (forall name, attr sc name = None \/ attr sc name = Some (Returns TNone)) ->
  for_fold time_methods (time_entry sc) [] g = (Normal [], g).
Proof.
  intros H. unfold time_methods. cbn [for_fold]. unfold bind.
  now rewrite !(time_entry_nothing sc _ _ _ H).
Qed.

(** C5.  When every accessor returns [None], step 2 ends normally and the
    widget holds the six placeholders; the time line is "Times not
    available", followed by " (check original page)" when the fallback
    was used. *)
Theorem defaults_when_nothing_extracted (sc : scraper) (fb : bool) (g : gui) :
  returns_nothing sc ->
  step2 sc fb g =
  (Normal tt,
   window g
     [ Seg (lit "Recipe (title not found)" ++ [nl; nl]) (Some Title);
       Seg (lit "Servings: N/A" ++ [nl]) (Some Heading);
       Seg (lit "Times not available"
              ++ (if fb then lit " (check original page)" else [])
              ++ [nl]) (Some Heading);
       Seg (lit "Notes: No description available." ++ [nl; nl]) (Some Heading);
       Seg (lit "Ingredients: (not found)" ++ [nl; nl]) (Some Heading);
       Seg (lit "Instructions: (not extracted " ++ [en_dash]
              ++ lit " see original site)" ++ [nl]) (Some Heading) ]
     []).
Proof.
  intros (Ht & Hy & Hd & Hi & Hs & Hattr).
  unfold step2, try_except, build_summary, write_summary, overview_paragraph,
    ingredients_paragraph, instructions_paragraph, bind at 1 2 3 4 5 6 7,
    output_delete_all.
  rewrite Ht, Hy, Hd. cbn [of_call ret].
  rewrite (time_loop_nothing sc _ Hattr).
  unfold bind, output_insert. rewrite Hi, Hs.
  destruct fb; unfold window; simpl; now rewrite app_nil_r.
Qed.

Lemma blank_scraper_returns_nothing : returns_nothing blank_scraper.
Proof.
  repeat split. intros name. unfold blank_scraper, by_name.
  cbn [attr find fst].
  destruct (String.eqb name "total_time"); [now right | now left].
Defined.

Lemma defaults_when_nothing_extracted_witness :
  map seg_text (output_text (snd (step2 blank_scraper false stale_window)))
  = [ lit "Recipe (title not found)" ++ [nl; nl];
      lit "Servings: N/A" ++ [nl];
      lit "Times not available" ++ [nl];
      lit "Notes: No description available." ++ [nl; nl];
      lit "Ingredients: (not found)" ++ [nl; nl];
      lit "Instructions: (not extracted " ++ [en_dash]
        ++ lit " see original site)" ++ [nl] ].
Proof.
  rewrite (defaults_when_nothing_extracted blank_scraper false stale_window
             blank_scraper_returns_nothing).
  reflexivity.
Defined.

(** ** The cap on the description *)

Lemma clip_description_long (d : pystr) :
  (600 < List.length d)%nat ->
  clip_description d = firstn 597 d ++ lit "..."
  /\ List.length (clip_description d) = 600%nat
  /\ skipn 597 (clip_description d) = lit "...".
Proof.
  intros H. unfold clip_description.
  apply Nat.ltb_lt in H as Hb. rewrite Hb.
  assert (Hlen : List.length (firstn 597 d) = 597%nat)
    by (rewrite length_firstn; lia).
  split; [reflexivity|]. split.
  - rewrite length_app, Hlen. reflexivity.
  - rewrite skipn_app, Hlen, Nat.sub_diag.
    rewrite <- Hlen at 1. rewrite skipn_all. reflexivity.
Qed.

Lemma clip_description_short (d : pystr) :
  (List.length d <= 600)%nat -> clip_description d = d.
Proof.
  intros H. unfold clip_description.
  apply Nat.ltb_ge in H. now rewrite H.
Qed.

(** When the overview was read without an error, the widget ends with its
    four segments followed by those of the later paragraphs. *)
Lemma step2_after_overview sc fb g t y d times :
  title sc = Returns t ->
  yields sc = Returns y ->
  description sc = Returns d ->
  fst (for_fold time_methods (time_entry sc) [] g) = Normal times ->
  exists more,
    output_text (snd (step2 sc fb g))
    = overview_segments t y d times fb ++ more.
Proof.
  intros Ht Hy Hd Htimes.
  destruct (time_loop_pure sc) as (r & _ & Hloop).
  rewrite Hloop in Htimes. cbn [fst] in Htimes. subst r.
  pose proof (overview_writes sc fb t y d times Ht Hy Hd Hloop) as Hover.
  destruct (paragraphs_append sc) as (r & more & Hmore & Hr & _).
  pose proof (writes_bind (overview_paragraph sc fb)
                (fun _ => ingredients_paragraph sc ;; instructions_paragraph sc)
                tt _ _ _ Hover Hmore) as Hall.
  unfold step2, try_except. rewrite build_summary_clears.
  unfold write_summary. rewrite Hall.
  destruct r as [[] | e |]; [| | now contradiction Hr].
  - now exists more.
  - exists (more ++ [parsing_issue e]).
    unfold output_insert, window. cbn [snd output_text app].
    now rewrite <- !app_assoc.
Qed.

(** The "Notes" segment is the fourth of the widget when the overview was
    read without an error, whatever the later paragraphs do. *)
Lemma notes_segment sc fb g t y d times :
  title sc = Returns t ->
  yields sc = Returns y ->
  description sc = Returns d ->
  fst (for_fold time_methods (time_entry sc) [] g) = Normal times ->
  nth_error (output_text (snd (step2 sc fb g))) 3
  = Some (Seg (lit "Notes: "
                 ++ clip_description
                      (or_default d (lit "No description available."))
                 ++ [nl; nl])
              (Some Heading)).
Proof.
  intros Ht Hy Hd Htimes.
  destruct (step2_after_overview sc fb g t y d times Ht Hy Hd Htimes)
    as (more & ->).
  reflexivity.
Qed.

(** C6.  A description longer than 600 characters is cut to its first 597
    characters followed by "...", 600 characters in all; one of 650
    characters thus becomes 600 characters ending in "...".  A description
    of at most 600 characters is kept as it is.  The capped text is what
    the "Notes" segment of the summary shows. *)
Theorem description_is_capped_at_600 :
  (forall d : pystr,
      (600 < List.length d)%nat ->
      clip_description d = firstn 597 d ++ lit "..."
      /\ List.length (clip_description d) = 600%nat
      /\ skipn 597 (clip_description d) = lit "...")
  /\ (forall d : pystr,
      List.length d = 650%nat ->
      List.length (clip_description d) = 600%nat
      /\ skipn 597 (clip_description d) = lit "...")
  /\ (forall d : pystr,
      (List.length d <= 600)%nat -> clip_description d = d)
  /\ (forall sc fb g t y c d times,
      title sc = Returns t ->
      yields sc = Returns y ->
      description sc = Returns (Some (c :: d)) ->
      fst (for_fold time_methods (time_entry sc) [] g) = Normal times ->
      nth_error (output_text (snd (step2 sc fb g))) 3
      = Some (Seg (lit "Notes: " ++ clip_description (c :: d) ++ [nl; nl])
                  (Some Heading))).
Proof.
  split; [exact clip_description_long|].
  split.
  { intros d Hd.
    destruct (clip_description_long d) as (_ & Hlen & Hend); [lia|].
    now split. }
  split; [exact clip_description_short|].
  intros sc fb g t y c d times Ht Hy Hd Htimes.
  exact (notes_segment sc fb g t y (Some (c :: d)) times Ht Hy Hd Htimes).
Qed.

Lemma description_is_capped_at_600_witness :
  List.length (clip_description (repeat 120 650)) = 600%nat
  /\ clip_description (repeat 120 600) = repeat 120 600
  /\ nth_error (output_text (snd (step2 long_description false stale_window)))
               3
     = Some (Seg (lit "Notes: " ++ repeat 120 597 ++ lit "..." ++ [nl; nl])
                 (Some Heading)).
Proof.
  destruct description_is_capped_at_600 as (_ & H650 & Hshort & Hnotes).
  split; [exact (proj1 (H650 (repeat 120 650) eq_refl))|].
  split.
  - apply Hshort. rewrite repeat_length. apply Nat.le_refl.
  - rewrite (Hnotes long_description false stale_window
               (Some (lit "Test Pie")) None 120 (repeat 120 649) []
               eq_refl eq_refl eq_refl eq_refl).
    reflexivity.
Defined.

(** ** The fallback scenario *)

(** C1, on the code.  In the fallback scenario (the native adapter raises
    [WebsiteNotImplementedError], the fetch succeeds, the generic adapter
    extracts "Test Pie" and no times) the widget ends with the title
    segment first, then the servings and the line "Times not available
    (check original page)".  The note segment of line 89 is not there: line
    104 cleared it together with the loading message. *)
Theorem fallback_scenario_output
    (w : world) (g : gui) (e : exn) (resp : response) :
  is_empty (strip (url_entry g)) = false ->
  let url := prefix_scheme (strip (url_entry g)) in
  scrape_me w url = Raises e ->
  is_WebsiteNotImplementedError e = true ->
  requests_get w url = Returns resp ->
  status_error resp = None ->
  scrape_html w (text resp) url = Returns test_pie ->
  summarize_recipe w g =
  (Normal tt,
   window g test_pie_summary
     [ScrapeMe url; RequestsGet url user_agent 12; ScrapeHtml (text resp) url])
  /\ hd_error (output_text (snd (summarize_recipe w g)))
     = Some (Seg (lit "Test Pie" ++ [nl; nl]) (Some Title))
  /\ existsb (fun s => match seg_tag s with Some Note => true | _ => false end)
             (output_text (snd (summarize_recipe w g))) = false.
Proof.
  intros Hurl url He Hcls Hget Hst Hhtml.
  assert (Hrun : summarize_recipe w g =
                 (Normal tt,
                  window g test_pie_summary
                    [ScrapeMe url; RequestsGet url user_agent 12;
                     ScrapeHtml (text resp) url])).
  { rewrite (summarize_recipe_started w g Hurl). fold url.
    unfold def, bind at 1. run_step1. simpl.
    rewrite He, Hcls, Hget. simpl. rewrite Hst, Hhtml. simpl.
    unfold window. simpl. now rewrite !app_nil_r, <- !app_assoc. }
  rewrite Hrun. repeat split.
Qed.

Lemma fallback_scenario_output_witness :
  output_text (snd (summarize_recipe fallback_world stale_window))
  = test_pie_summary.
Proof.
  destruct (fallback_scenario_output fallback_world stale_window unsupported
              {| status_error := None; text := lit "<html>pie</html>" |}
              eq_refl eq_refl eq_refl eq_refl eq_refl eq_refl)
    as (Hrun & _).
  rewrite Hrun. reflexivity.
Defined.

(** ** The time line *)

(** C2, on the code.  The loop asks the scraper for [total_time],
    [preptime] and [cooktime].  A scraper whose accessors are [total_time],
    [prep_time] and [cook_time] has only the first of these, and its time
    line is "Total: 45 min": the cook time "varies" is not shown. *)
Theorem time_line_of_timed_recipe (fb : bool) (g : gui) :
  for_fold time_methods (time_entry timed_recipe) [] g
  = (Normal [lit "Total: 45 min"], g)
  /\ nth_error (output_text (snd (step2 timed_recipe fb g))) 2
     = Some (Seg (lit "Total: 45 min" ++ [nl]) (Some Heading)).
Proof.
  split; [reflexivity|].
  unfold step2, try_except, build_summary, write_summary, overview_paragraph,
    ingredients_paragraph, instructions_paragraph, bind, output_delete_all,
    output_insert.
  destruct fb; reflexivity.
Qed.

(** Under the names of [time_methods] the same values give the line of
    the claim: numbers as "<Label>: <int> min", text as "<Label>: <text>",
    [None] left out, the entries joined by " | ". *)
Lemma time_line_under_short_names (fb : bool) (g : gui) :
  for_fold time_methods (time_entry timed_recipe_short_names) [] g
  = (Normal [lit "Total: 45 min"; lit "Cook: varies"], g)
  /\ nth_error (output_text (snd (step2 timed_recipe_short_names fb g))) 2
     = Some (Seg (lit "Total: 45 min | Cook: varies" ++ [nl]) (Some Heading)).
Proof.
  split; [reflexivity|].
  unfold step2, try_except, build_summary, write_summary, overview_paragraph,
    ingredients_paragraph, instructions_paragraph, bind, output_delete_all,
    output_insert.
  destruct fb; reflexivity.
Qed.

(** [int(x)] truncates toward zero: the result has the sign of [x] and
    its absolute value is the integer part of that of [x]. *)
Lemma int_of_float_truncates :
  int_of_float (Finite (-5 # 2)) = Returns (-2)%Z
  /\ int_of_float (Finite (5 # 2)) = Returns 2%Z
  /\ forall q n, int_of_float (Finite q) = Returns n ->
       (Z.abs n * Z.pos (Qden q) <= Z.abs (Qnum q)
        < (Z.abs n + 1) * Z.pos (Qden q))%Z
       /\ (0 <= n * Qnum q)%Z.
Proof.
  split; [reflexivity|]. split; [reflexivity|].
  intros q n H. injection H as <-.
  destruct q as [num den]. cbn [Qnum Qden]. split.
  - rewrite <- Z.quot_abs by discriminate.
    change (Z.abs (Z.pos den)) with (Z.pos den).
    pose proof (Z.abs_nonneg num) as Hnum.
    rewrite Z.quot_div_nonneg by lia.
    pose proof (Z.mul_div_le (Z.abs num) (Z.pos den) eq_refl).
    pose proof (Z.mul_succ_div_gt (Z.abs num) (Z.pos den) eq_refl).
    lia.
  - destruct (Z.le_ge_cases 0 num) as [Hpos | Hneg].
    + pose proof (Z.quot_pos num (Z.pos den) Hpos eq_refl). nia.
    + assert (H : (Z.quot num (Z.pos den) <= 0)%Z).
      { rewrite <- (Z.opp_involutive num), Z.quot_opp_l by discriminate.
        pose proof (Z.quot_pos (- num) (Z.pos den)). lia. }
      nia.
Qed.

(** ** The file name *)

Lemma re_sub_class_deletes (class : N -> bool) (s : pystr) :
  re_sub_class class [] s = filter (fun c => negb (class c)) s.
Proof.
  induction s as [|c s IH]; simpl; [reflexivity|].
  destruct (class c); simpl; now rewrite IH.
Qed.

Lemma dropwhile_head p s c s' : dropwhile p s = c :: s' -> p c = false.
Proof.
  induction s as [|a s IH]; simpl; [discriminate|].
  destruct (p a) eqn:E; [exact IH|]. now intros [= <- _].
Qed.

Lemma dropwhile_app_last p l c :
  p c = false -> dropwhile p (l ++ [c]) = dropwhile p l ++ [c].
Proof.
  intros H. induction l as [|a l IH]; simpl; [now rewrite H|].
  now destruct (p a).
Qed.

Lemma Forall_dropwhile (Q : N -> Prop) p s :
  Forall Q s -> Forall Q (dropwhile p s).
Proof.
  induction 1 as [|a s Ha Hs IH]; simpl; [constructor|].
  destruct (p a); [exact IH | now constructor].
Qed.

Lemma Forall_strip_by (Q : N -> Prop) p s :
  Forall Q s -> Forall Q (strip_by p s).
Proof.
  intros H. unfold strip_by, rstrip_by, lstrip_by.
  now apply Forall_rev, Forall_dropwhile, Forall_rev, Forall_dropwhile.
Qed.

Lemma strip_by_head p s c : hd_error (strip_by p s) = Some c -> p c = false.
Proof.
  unfold strip_by, rstrip_by, lstrip_by.
  destruct (dropwhile p s) as [|a s'] eqn:E; [discriminate|].
  pose proof (dropwhile_head p s a s' E) as Ha.
  cbn [rev]. rewrite (dropwhile_app_last p (rev s') a Ha), rev_app_distr.
  cbn. now intros [= <-].
Qed.

Lemma strip_by_last p s c :
  hd_error (rev (strip_by p s)) = Some c -> p c = false.
Proof.
  unfold strip_by, rstrip_by. rewrite rev_involutive.
  destruct (dropwhile p (rev (lstrip_by p s))) as [|a s'] eqn:E;
    [discriminate|].
  cbn. intros [= <-]. exact (dropwhile_head p _ _ _ E).
Qed.

Lemma filter_dropwhile (f p : N -> bool) s :
  (forall c, p c = true -> f c = false) ->
  filter f (dropwhile p s) = filter f s.
Proof.
  intros H. induction s as [|a s IH]; simpl; [reflexivity|].
  destruct (p a) eqn:E; [|reflexivity]. now rewrite (H a E).
Qed.

Lemma filter_strip_by (f p : N -> bool) s :
  (forall c, p c = true -> f c = false) ->
  filter f (strip_by p s) = filter f s.
Proof.
  intros H. unfold strip_by, rstrip_by, lstrip_by.
  rewrite filter_rev, (filter_dropwhile f p _ H), filter_rev, rev_involutive.
  apply (filter_dropwhile f p _ H).
Qed.

Lemma filter_re_sub_runs (f class : N -> bool) repl s :
  (forall c, class c = true -> f c = false) ->
  filter f repl = [] ->
  forall in_run,
    filter f (re_sub_runs_from class repl in_run s) = filter f s.
Proof.
  intros Hclass Hrepl. induction s as [|c s IH]; intros in_run; simpl;
    [reflexivity|].
  destruct (class c) eqn:E.
  - rewrite filter_app, IH, (Hclass c E).
    destruct in_run; [reflexivity | now rewrite Hrepl].
  - simpl. now rewrite IH.
Qed.

Lemma Forall_re_sub_runs (Q : N -> Prop) class repl s :
  Forall Q repl ->
  Forall (fun c => class c = false -> Q c) s ->
  forall in_run, Forall Q (re_sub_runs_from class repl in_run s).
Proof.
  intros Hrepl. induction 1 as [|c s Hc Hs IH]; intros in_run; simpl;
    [constructor|].
  destruct (class c) eqn:E.
  - apply Forall_app. split; [destruct in_run; [constructor | exact Hrepl]|].
    apply IH.
  - constructor; [now apply Hc | apply IH].
Qed.

(** A maximal run of whitespace becomes one underscore. *)
Lemma whitespace_run_becomes_one_underscore (ws rest : pystr) :
  ws <> [] ->
  forallb isspace ws = true ->
  match rest with [] => True | c :: _ => isspace c = false end ->
  re_sub_runs isspace [underscore] (ws ++ rest)
  = underscore :: re_sub_runs isspace [underscore] rest.
Proof.
  intros Hne Hws Hrest.
  assert (Hrun : forall l, forallb isspace l = true ->
            re_sub_runs_from isspace [underscore] true (l ++ rest)
            = re_sub_runs_from isspace [underscore] false rest).
  { induction l as [|a l IH]; simpl.
    - intros _. destruct rest as [|c rest']; [reflexivity|].
      simpl. now rewrite Hrest.
    - intros H. apply andb_true_iff in H as [Ha Hl]. rewrite Ha.
      now apply IH. }
  destruct ws as [|a ws]; [now contradiction Hne|].
  simpl in Hws. apply andb_true_iff in Hws as [Ha Hws].
  unfold re_sub_runs. simpl. rewrite Ha. simpl. now rewrite Hrun.
Qed.

(** *** The time stamp *)

Lemma digitsb_digits n s : digitsb n s = true -> digits n s.
Proof.
  unfold digitsb, digits. intros H. apply andb_true_iff in H as [Hl Hd].
  split; [now apply Nat.eqb_eq | exact Hd].
Qed.

Lemma zero_pad_digits (width : nat) (bound : N) :
  forallb (fun k => digitsb width (zero_pad width (N.of_nat k)))
          (seq 0 (N.to_nat bound)) = true ->
  forall n, n < bound -> digits width (zero_pad width n).
Proof.
  intros Hall n Hn. apply digitsb_digits.
  rewrite forallb_forall in Hall.
  specialize (Hall (N.to_nat n)). rewrite N2Nat.id in Hall.
  apply Hall, in_seq. lia.
Qed.

Lemma zero_pad_2_digits n : n < 100 -> digits 2 (zero_pad 2 n).
Proof. apply (zero_pad_digits 2 100). vm_compute. reflexivity. Qed.

Lemma zero_pad_4_digits n : n < 10000 -> digits 4 (zero_pad 4 n).
Proof. apply (zero_pad_digits 4 10000). vm_compute. reflexivity. Qed.

(** *** The title, cleaned *)

Lemma core_kept c : core c = true -> special_char c = false.
Proof.
  unfold core. intros H. apply andb_true_iff in H as [H _].
  apply andb_true_iff in H as [H _]. now apply negb_true_iff.
Qed.

Lemma core_not_space c : isspace c = true -> core c = false.
Proof.
  unfold core. intros ->. now rewrite andb_false_r.
Qed.

Lemma core_not_underscore c : (underscore =? c) = true -> core c = false.
Proof.
  unfold core. intros ->. now rewrite andb_false_r.
Qed.

Lemma clean_title_stripped t :
  clean_title t
  = if is_empty (stripped_title t) then lit "edited_recipe"
    else stripped_title t.
Proof. reflexivity. Qed.

Lemma stripped_title_core t :
  filter core (stripped_title t) = filter core t.
Proof.
  unfold stripped_title.
  rewrite (filter_strip_by core _ _ core_not_underscore).
  unfold re_sub_runs.
  rewrite (filter_re_sub_runs core isspace [underscore] _ core_not_space
             eq_refl false).
  rewrite re_sub_class_deletes.
  induction t as [|c t IH]; cbn [filter]; [reflexivity|].
  destruct (core c) eqn:E.
  - rewrite (core_kept c E). cbn [negb filter]. now rewrite E, IH.
  - destruct (special_char c); cbn [negb filter];
      [exact IH | now rewrite E, IH].
Qed.

Lemma stripped_title_chars t :
  Forall (fun c => word_or_hyphen c = true) (stripped_title t).
Proof.
  unfold stripped_title. apply Forall_strip_by.
  unfold re_sub_runs. apply Forall_re_sub_runs.
  - repeat constructor.
  - rewrite re_sub_class_deletes. apply Forall_forall. intros c Hc Hsp.
    apply filter_In in Hc as [_ Hc]. unfold special_char in Hc.
    rewrite negb_involutive in Hc. unfold word_or_hyphen.
    rewrite Hsp, orb_false_r in Hc. exact Hc.
Qed.

Lemma stripped_title_no_space t :
  Forall (fun c => isspace c = false) (stripped_title t).
Proof.
  unfold stripped_title. apply Forall_strip_by.
  unfold re_sub_runs. apply Forall_re_sub_runs.
  - repeat constructor.
  - apply Forall_forall. intros c _ Hc. exact Hc.
Qed.

Lemma stripped_title_head t c :
  hd_error (stripped_title t) = Some c -> (underscore =? c) = false.
Proof. apply strip_by_head. Qed.

Lemma stripped_title_last t c :
  hd_error (rev (stripped_title t)) = Some c -> (underscore =? c) = false.
Proof. apply strip_by_last. Qed.

(** Only underscores are neither whitespace, nor special, nor core: a
    title without core characters is stripped to nothing. *)
Lemma stripped_title_without_core t :
  filter core t = [] -> stripped_title t = [].
Proof.
  intros H. rewrite <- stripped_title_core in H.
  pose proof (stripped_title_chars t) as Hchars.
  pose proof (stripped_title_no_space t) as Hspace.
  pose proof (stripped_title_head t) as Hhead.
  destruct (stripped_title t) as [|c s]; [reflexivity|]. exfalso.
  specialize (Hhead c eq_refl).
  inversion Hchars as [|c1 s1 Hc _]; subst.
  inversion Hspace as [|c2 s2 Hsp _]; subst.
  cbn [filter] in H. unfold core at 1, special_char in H.
  unfold word_or_hyphen in Hc.
  assert (Hkeep : (isword c || isspace c || (c =? hyphen)) = true)
    by (rewrite Hsp, orb_false_r; exact Hc).
  rewrite Hkeep, Hsp, Hhead in H. cbn [negb andb] in H. discriminate.
Qed.

(** C7, as stated, fails: "e" with a grave accent (U+00E8) lies outside
    [[A-Za-z0-9_\s-]] and line 191 keeps it, since [\w] on a [str] matches
    every alphanumeric character of Unicode. *)
Lemma accented_letter_is_kept :
  clean_title (lit "Cr" ++ [232] ++ lit "me brul" ++ [233] ++ lit "e!")
  = lit "Cr" ++ [232] ++ lit "me_brul" ++ [233] ++ lit "e"
  /\ ascii_class 232 = false
  /\ ascii_class 233 = false.
Proof. repeat split; vm_compute; reflexivity. Qed.

(** *** Trimming a text in two parts *)

Lemma dropwhile_app_keep p (l r : pystr) :
  dropwhile p l <> [] -> dropwhile p (l ++ r) = dropwhile p l ++ r.
Proof.
  induction l as [|a l IH]; simpl; [now intros []|].
  destruct (p a); [exact IH | reflexivity].
Qed.

Lemma dropwhile_app_all p (l r : pystr) :
  dropwhile p l = [] -> dropwhile p (l ++ r) = dropwhile p r.
Proof.
  induction l as [|a l IH]; simpl; [reflexivity|].
  destruct (p a); [exact IH | discriminate].
Qed.

Lemma dropwhile_idem p (s : pystr) :
  dropwhile p (dropwhile p s) = dropwhile p s.
Proof.
  destruct (dropwhile p s) as [|c s'] eqn:E; [reflexivity|].
  simpl. now rewrite (dropwhile_head p s c s' E).
Qed.

(** Trimming on the right reaches into [a] only when [b] is all of the
    trimmed kind. *)
Lemma rstrip_by_app p (a b : pystr) :
  rstrip_by p (a ++ b)
  = if is_empty (rstrip_by p b) then rstrip_by p a else a ++ rstrip_by p b.
Proof.
  unfold rstrip_by. rewrite rev_app_distr.
  destruct (dropwhile p (rev b)) as [|c l] eqn:E.
  - cbn [rev is_empty]. now rewrite (dropwhile_app_all p _ _ E).
  - rewrite dropwhile_app_keep by (rewrite E; discriminate).
    rewrite E, rev_app_distr, rev_involutive.
    destruct (rev (c :: l)) eqn:R; [|reflexivity].
    apply (f_equal (@rev N)) in R. rewrite rev_involutive in R.
    discriminate.
Qed.

(** *** The cleaning, in the words of its description *)

Lemma forallb_impl (p q : N -> bool) (s : pystr) :
  (forall c, p c = true -> q c = true) ->
  forallb p s = true -> forallb q s = true.
Proof.
  intros Hpq. rewrite !forallb_forall. intros H c Hc. now apply Hpq, H.
Qed.

Lemma forallb_Forall (p : N -> bool) (s : pystr) :
  forallb p s = true -> Forall (fun c => p c = true) s.
Proof. intros H. apply Forall_forall. now apply forallb_forall. Qed.

Lemma collapse_whitespace_cons (c : N) (s : pystr) :
  collapse_whitespace (c :: s)
  = if isspace c then
      match s with
      | d :: _ =>
          if isspace d then collapse_whitespace s
          else underscore :: collapse_whitespace s
      | [] => [underscore]
      end
    else c :: collapse_whitespace s.
Proof. reflexivity. Qed.

Lemma collapse_whitespace_run (c : N) (s : pystr) :
  isspace c = true ->
  collapse_whitespace (c :: s)
  = underscore :: collapse_whitespace (dropwhile isspace s).
Proof.
  revert c. induction s as [|d s IH]; intros c Hc;
    rewrite collapse_whitespace_cons, Hc; [reflexivity|].
  cbn [dropwhile]. destruct (isspace d) eqn:Hd; [now apply IH | reflexivity].
Qed.

(** The substitution of line 192 with its flag, and the collapse that looks
    ahead, give the same text. *)
Lemma re_sub_runs_collapse (s : pystr) :
  re_sub_runs_from isspace [underscore] false s = collapse_whitespace s
  /\ re_sub_runs_from isspace [underscore] true s
     = collapse_whitespace (dropwhile isspace s).
Proof.
  induction s as [|c s [IHf IHt]]; [split; reflexivity|].
  cbn [re_sub_runs_from dropwhile]. destruct (isspace c) eqn:Hc.
  - rewrite IHt. cbn [app]. split; [|reflexivity].
    symmetry. now apply collapse_whitespace_run.
  - rewrite IHf, collapse_whitespace_cons, Hc. now split.
Qed.

Lemma clean_title_sanitize (t : pystr) : clean_title t = sanitize t.
Proof.
  unfold clean_title, sanitize, re_sub_runs.
  rewrite re_sub_class_deletes.
  rewrite (proj1 (re_sub_runs_collapse _)).
  rewrite (filter_ext (fun c => negb (special_char c)) kept_char); [reflexivity|].
  intros c. unfold special_char, kept_char, isword. apply negb_involutive.
Qed.

(** *** Two words and the whitespace between them *)

Lemma dropwhile_none (p : N -> bool) (s : pystr) :
  forallb (fun c => negb (p c)) s = true -> dropwhile p s = s.
Proof.
  destruct s as [|c s]; [reflexivity|]. cbn [forallb dropwhile]. intros H.
  apply andb_true_iff in H as [Hc _]. apply negb_true_iff in Hc.
  now rewrite Hc.
Qed.

Lemma strip_by_none (p : N -> bool) (s : pystr) :
  forallb (fun c => negb (p c)) s = true -> strip_by p s = s.
Proof.
  intros H. unfold strip_by, lstrip_by, rstrip_by.
  rewrite (dropwhile_none p s H), dropwhile_none; [apply rev_involutive|].
  apply forallb_forall. intros c Hc. rewrite forallb_forall in H.
  now apply H, in_rev.
Qed.

Lemma re_sub_class_keeps (class : N -> bool) (s : pystr) :
  forallb (fun c => negb (class c)) s = true -> re_sub_class class [] s = s.
Proof.
  induction s as [|c s IH]; [reflexivity|]. cbn [forallb]. intros H.
  apply andb_true_iff in H as [Hc Hs]. apply negb_true_iff in Hc.
  unfold re_sub_class in *. cbn [flat_map]. now rewrite Hc, (IH Hs).
Qed.

Lemma re_sub_runs_word (class : N -> bool) (repl a s : pystr) :
  forallb (fun c => negb (class c)) a = true ->
  re_sub_runs class repl (a ++ s) = a ++ re_sub_runs class repl s.
Proof.
  unfold re_sub_runs.
  induction a as [|c a IH]; [reflexivity|]. cbn [forallb]. intros H.
  apply andb_true_iff in H as [Hc Ha]. apply negb_true_iff in Hc.
  cbn [app re_sub_runs_from]. now rewrite Hc, (IH Ha).
Qed.

Lemma re_sub_runs_none (class : N -> bool) (repl s : pystr) :
  forallb (fun c => negb (class c)) s = true -> re_sub_runs class repl s = s.
Proof.
  intros H. rewrite <- (app_nil_r s) at 1.
  rewrite (re_sub_runs_word class repl s [] H). apply app_nil_r.
Qed.

Lemma core_is_kept (s : pystr) :
  forallb core s = true ->
  forallb (fun c => negb (special_char c)) s = true
  /\ forallb (fun c => negb (isspace c)) s = true
  /\ forallb (fun c => negb (underscore =? c)) s = true.
Proof.
  intros H. repeat split; revert H; apply forallb_impl; intros c Hc;
    unfold core in Hc; apply andb_true_iff in Hc as [Hc Hu];
    apply andb_true_iff in Hc as [Hk Hs]; assumption.
Qed.

Lemma space_is_kept (s : pystr) :
  forallb isspace s = true ->
  forallb (fun c => negb (special_char c)) s = true.
Proof.
  apply forallb_impl. intros c Hc. unfold special_char.
  now rewrite Hc, orb_true_r, negb_involutive.
Qed.

(** Two words with whitespace between them are joined by one underscore,
    however long the whitespace. *)
Lemma words_are_joined_by_one_underscore (a ws b : pystr) :
  a <> [] -> forallb core a = true ->
  ws <> [] -> forallb isspace ws = true ->
  b <> [] -> forallb core b = true ->
  clean_title (a ++ ws ++ b) = a ++ [underscore] ++ b.
Proof.
  intros Ha Hca Hws Hsp Hb Hcb.
  destruct (core_is_kept a Hca) as (Hka & Hsa & Hua).
  destruct (core_is_kept b Hcb) as (Hkb & Hsb & Hub).
  rewrite clean_title_stripped. unfold stripped_title.
  rewrite re_sub_class_keeps
    by (rewrite !forallb_app, Hka, Hkb, (space_is_kept ws Hsp); reflexivity).
  rewrite (re_sub_runs_word isspace [underscore] a _ Hsa).
  rewrite (whitespace_run_becomes_one_underscore ws b Hws Hsp).
  2:{ destruct b as [|c b]; [exact I|]. cbn [forallb] in Hsb.
      apply andb_true_iff in Hsb as [Hc _]. now apply negb_true_iff. }
  rewrite (re_sub_runs_none isspace [underscore] b Hsb).
  assert (Hstrip : strip_by (N.eqb underscore) (a ++ underscore :: b)
                   = a ++ underscore :: b).
  { unfold strip_by, lstrip_by.
    rewrite dropwhile_app_keep
      by (rewrite (dropwhile_none _ a Hua); exact Ha).
    rewrite (dropwhile_none _ a Hua).
    change (a ++ underscore :: b) with (a ++ [underscore] ++ b).
    rewrite app_assoc, rstrip_by_app.
    assert (Hrb : rstrip_by (N.eqb underscore) b = b).
    { unfold rstrip_by. rewrite dropwhile_none; [apply rev_involutive|].
      apply forallb_forall. intros c Hc. rewrite forallb_forall in Hub.
      now apply Hub, in_rev. }
    rewrite Hrb. destruct b; [now contradiction Hb | reflexivity]. }
  rewrite Hstrip. destruct a; [now contradiction Ha | reflexivity].
Qed.

(** C7, as the code has it, for every title [t].  The cleaned title
    [name] is the title sanitized in the words of the description: the
    characters that are neither word characters in the sense of [\w]
    (any alphanumeric of Unicode, accented letters included, or the
    underscore), nor whitespace, nor hyphens are removed; every run of
    whitespace becomes one underscore; the underscores at both ends are
    trimmed; "edited_recipe" stands for an empty result.  So two words
    are joined by one underscore however long the whitespace between
    them.  [name] holds only word characters and hyphens; the
    alphanumerics and hyphens of [t] are all there, in order; [name]
    neither begins nor ends with an underscore, and is "edited_recipe"
    when [t] has no alphanumeric and no hyphen.  "Mom's Apple Pie!" gives
    "Moms_Apple_Pie".  The file is [name] followed by ".txt", or, when a
    file of that name exists, by "_YYYY-MM-DD_HHMM.txt". *)
Theorem file_name_from_title (t : pystr) :
  let name := clean_title t in
  name = sanitize t
  /\ (forall a ws b,
        a <> [] -> forallb core a = true ->
        ws <> [] -> forallb isspace ws = true ->
        b <> [] -> forallb core b = true ->
        clean_title (a ++ ws ++ b) = a ++ [underscore] ++ b)
  /\ Forall (fun c => word_or_hyphen c = true) name
  /\ (filter core t = [] -> name = lit "edited_recipe")
  /\ (filter core t <> [] -> filter core name = filter core t)
  /\ name <> []
  /\ hd_error name <> Some underscore
  /\ hd_error (rev name) <> Some underscore
  /\ clean_title (lit "Mom's Apple Pie!") = lit "Moms_Apple_Pie"
  /\ (forall path_exists now,
        path_exists (name ++ lit ".txt") = false ->
        file_path path_exists now t = name ++ lit ".txt")
  /\ (forall path_exists now,
        path_exists (name ++ lit ".txt") = true ->
        valid_datetime now ->
        exists Y M D h m,
          digits 4 Y /\ digits 2 M /\ digits 2 D /\ digits 2 h /\ digits 2 m
          /\ file_path path_exists now t
             = name ++ [underscore] ++ Y ++ [hyphen] ++ M ++ [hyphen] ++ D
                 ++ [underscore] ++ h ++ m ++ lit ".txt").
Proof.
  intros name. subst name.
  split; [apply clean_title_sanitize|].
  split; [exact words_are_joined_by_one_underscore|].
  rewrite clean_title_stripped.
  pose proof (stripped_title_chars t) as Hchars.
  pose proof (stripped_title_core t) as Hcore.
  pose proof (stripped_title_without_core t) as Hnone.
  pose proof (stripped_title_head t) as Hhead.
  pose proof (stripped_title_last t) as Hlast.
  split; [|split; [|split; [|split; [|split; [|split; [|split; [|split]]]]]]].
  - destruct (stripped_title t); [|exact Hchars].
    apply forallb_Forall. vm_compute. reflexivity.
  - intros H. now rewrite (Hnone H).
  - intros H. destruct (stripped_title t) as [|c s] eqn:E; [|exact Hcore].
    now rewrite <- Hcore in H.
  - destruct (stripped_title t); discriminate.
  - destruct (stripped_title t) as [|c s]; [discriminate|].
    cbn [is_empty]. intros H. specialize (Hhead _ H). discriminate.
  - destruct (stripped_title t) as [|c s] eqn:E; [discriminate|].
    cbn [is_empty]. intros H. specialize (Hlast _ H). discriminate.
  - vm_compute. reflexivity.
  - intros path_exists now Hex. unfold file_path.
    rewrite clean_title_stripped, Hex. reflexivity.
  - intros path_exists now Hex (Hy & Hm & Hd & Hh & Hmin).
    exists (zero_pad 4 (year now)), (zero_pad 2 (month now)),
      (zero_pad 2 (day now)), (zero_pad 2 (hour now)),
      (zero_pad 2 (minute now)).
    split; [apply zero_pad_4_digits; lia|].
    split; [apply zero_pad_2_digits; lia|].
    split; [apply zero_pad_2_digits; lia|].
    split; [apply zero_pad_2_digits; lia|].
    split; [apply zero_pad_2_digits; lia|].
    unfold file_path. rewrite clean_title_stripped, Hex.
    unfold timestamp. now rewrite <- !app_assoc.
Qed.

Lemma file_name_from_title_witness :
  file_path (fun _ => false) a_monday_morning (lit "Mom's Apple Pie!")
  = lit "Moms_Apple_Pie.txt"
  /\ (exists stamp,
        file_path pie_exists a_monday_morning (lit "Mom's Apple Pie!")
        = lit "Moms_Apple_Pie_" ++ stamp ++ lit ".txt"
        /\ List.length stamp = 15%nat)
  /\ clean_title (lit "Apple" ++ [32; 9; 160] ++ lit "Pie")
     = lit "Apple_Pie"
  /\ clean_title zurek_title
     = [379; 117; 114; 101; 107; 95; 322; 243; 100; 122; 107; 105; 95;
        21271; 20140; 95; 1635].
Proof.
  destruct (file_name_from_title (lit "Mom's Apple Pie!"))
    as (_ & Hjoin & _ & _ & _ & _ & _ & _ & Hmom & Hnew & Hold).
  destruct (file_name_from_title zurek_title) as (Hzurek & _).
  split; [|split; [|split]].
  - apply Hnew. vm_compute. reflexivity.
  - destruct (Hold pie_exists a_monday_morning)
      as (Y & M & D & h & m & [HY _] & [HM _] & [HD _] & [Hh _] & [Hm _]
          & Hpath).
    { vm_compute. reflexivity. }
    { unfold valid_datetime, a_monday_morning; simpl; lia. }
    exists (Y ++ [hyphen] ++ M ++ [hyphen] ++ D ++ [underscore] ++ h ++ m).
    split.
    + rewrite Hpath, Hmom.
      change (lit "Moms_Apple_Pie_") with (lit "Moms_Apple_Pie" ++ [underscore]).
      now rewrite <- !app_assoc.
    + rewrite !length_app, HY, HM, HD, Hh, Hm. reflexivity.
  - exact (Hjoin (lit "Apple") [32; 9; 160] (lit "Pie")
             ltac:(discriminate) ltac:(vm_compute; reflexivity)
             ltac:(discriminate) ltac:(vm_compute; reflexivity)
             ltac:(discriminate) ltac:(vm_compute; reflexivity)).
  - rewrite Hzurek. vm_compute. reflexivity.
Defined.

(** ** The title the save routine reads back *)

Lemma strip_lstrip (s : pystr) : strip (lstrip_by isspace s) = strip s.
Proof.
  unfold strip, strip_by, lstrip_by. now rewrite dropwhile_idem.
Qed.

Lemma strip_idem (s : pystr) : strip (strip s) = strip s.
Proof.
  unfold strip at 1, strip_by, lstrip_by, rstrip_by.
  destruct (strip s) as [|c l] eqn:E; [reflexivity|].
  assert (Hc : isspace c = false)
    by (apply (strip_by_head isspace s); unfold strip in E; now rewrite E).
  cbn [dropwhile]. rewrite Hc.
  destruct (rev (c :: l)) as [|d r] eqn:R.
  { apply (f_equal (@rev N)) in R. rewrite rev_involutive in R.
    discriminate. }
  assert (Hd : isspace d = false).
  { apply (strip_by_last isspace s). unfold strip in E. now rewrite E, R. }
  cbn [dropwhile]. rewrite Hd, <- R. apply rev_involutive.
Qed.

Lemma one_line_strip (s : pystr) : one_line s -> one_line (strip s).
Proof.
  unfold one_line. rewrite !forallb_forall. intros H c Hc. apply H.
  revert Hc. unfold strip.
  assert (Hsub : Forall (fun x => In x s) (strip_by isspace s))
    by (apply Forall_strip_by, Forall_forall; auto).
  rewrite Forall_forall in Hsub. apply Hsub.
Qed.

Lemma one_line_lstrip (s : pystr) :
  one_line s -> one_line (lstrip_by isspace s).
Proof.
  unfold one_line, lstrip_by. rewrite !forallb_forall. intros H c Hc.
  apply H.
  assert (Hsub : Forall (fun x => In x s) (dropwhile isspace s))
    by (apply Forall_dropwhile, Forall_forall; auto).
  rewrite Forall_forall in Hsub. now apply Hsub.
Qed.

Lemma splitlines_from_one_line (l s cur : pystr) :
  one_line l ->
  splitlines_from cur (l ++ s) = splitlines_from (rev l ++ cur) s.
Proof.
  unfold one_line. revert cur.
  induction l as [|a l IH]; intros cur H; [reflexivity|].
  cbn [forallb] in H. apply andb_true_iff in H as [Ha Hl].
  apply negb_true_iff in Ha. cbn [app splitlines_from]. rewrite Ha.
  rewrite (IH (a :: cur) Hl). cbn [rev]. now rewrite <- app_assoc.
Qed.

(** The first line of a text is what stands before its first line feed,
    when that holds no other line boundary. *)
Lemma splitlines_first_line (l rest : pystr) :
  one_line l -> splitlines (l ++ nl :: rest) = l :: splitlines rest.
Proof.
  intros H. unfold splitlines.
  rewrite (splitlines_from_one_line l (nl :: rest) [] H).
  rewrite app_nil_r. cbn. rewrite rev_involutive.
  destruct rest; reflexivity.
Qed.

Lemma splitlines_one_line (l : pystr) :
  one_line l -> l <> [] -> splitlines l = [l].
Proof.
  intros H Hne. unfold splitlines.
  rewrite <- (app_nil_r l) at 1.
  rewrite (splitlines_from_one_line l [] [] H), app_nil_r. cbn.
  destruct (rev l) eqn:R; [|now rewrite <- R, rev_involutive].
  apply (f_equal (@rev N)) in R. rewrite rev_involutive in R.
  now contradiction Hne.
Qed.

(** The save routine reads the title back from a widget whose text
    starts with a one-line title [t] and a line feed: the title it takes
    is [t], trimmed. *)
Lemma first_line_title_of_text (t rest : pystr) :
  one_line t ->
  strip t <> [] ->
  first_line_title (strip (t ++ nl :: rest)) = strip t.
Proof.
  intros Hline Hne.
  assert (Hl : lstrip_by isspace t <> []).
  { intros E. apply Hne. unfold strip, strip_by. now rewrite E. }
  unfold strip at 1, strip_by.
  unfold lstrip_by at 1. rewrite (dropwhile_app_keep isspace t _ Hl).
  fold (lstrip_by isspace t). rewrite rstrip_by_app.
  destruct (rstrip_by isspace (nl :: rest)) as [|c tail] eqn:E;
    cbn [is_empty].
  - fold (strip_by isspace t). fold (strip t).
    unfold first_line_title.
    rewrite (splitlines_one_line (strip t) (one_line_strip t Hline) Hne).
    cbn [map filter]. rewrite strip_idem.
    destruct (strip t); [now contradiction Hne | reflexivity].
  - assert (Hc : c = nl).
    { change (nl :: rest) with ([nl] ++ rest) in E.
      rewrite rstrip_by_app in E.
      destruct (is_empty (rstrip_by isspace rest)); [discriminate|].
      now injection E as <- _. }
    subst c. unfold first_line_title.
    rewrite (splitlines_first_line _ tail (one_line_lstrip t Hline)).
    cbn [map filter]. rewrite strip_lstrip.
    destruct (strip t); [now contradiction Hne | reflexivity].
Qed.

(** The title line of a rendered summary is the title the save routine
    takes for the file's name (lines 187-188), when the shown title is one
    line and not blank: the summary's first line is the title. *)
Lemma saved_title_is_shown_title sc fb g t y d times :
  title sc = Returns t ->
  yields sc = Returns y ->
  description sc = Returns d ->
  fst (for_fold time_methods (time_entry sc) [] g) = Normal times ->
  let shown := or_default t (lit "Recipe (title not found)") in
  one_line shown ->
  strip shown <> [] ->
  first_line_title (text_to_save (snd (step2 sc fb g))) = strip shown.
Proof.
  intros Ht Hy Hd Htimes shown Hline Hne.
  destruct (step2_after_overview sc fb g t y d times Ht Hy Hd Htimes)
    as (more & Hout).
  unfold text_to_save. rewrite Hout.
  unfold overview_segments. cbn [app map List.concat seg_text].
  fold shown. rewrite <- !app_assoc. cbn [app].
  now apply first_line_title_of_text.
Qed.

(** In the fallback scenario the widget is saved as "Test_Pie.txt". *)
Lemma fallback_scenario_file :
  nothing_to_save
    (text_to_save (snd (summarize_recipe fallback_world stale_window)))
  = false
  /\ file_path (fun _ => false) a_monday_morning
       (first_line_title
          (text_to_save (snd (summarize_recipe fallback_world stale_window))))
     = lit "Test_Pie.txt".
Proof. split; vm_compute; reflexivity. Qed.

(** * Further properties of [summarize_recipe] *)

(** X2.  A run on a non-empty URL replaces whatever the widget showed:
    two windows with the same trimmed entry end with the same output.
    The run shows no message box and leaves the entry as it was typed. *)
Theorem run_replaces_previous_output (w : world) (g1 g2 : gui) :
  is_empty (strip (url_entry g1)) = false ->
  strip (url_entry g2) = strip (url_entry g1) ->
  output_text (snd (summarize_recipe w g1))
  = output_text (snd (summarize_recipe w g2))
  /\ dialogs (snd (summarize_recipe w g1)) = dialogs g1
  /\ url_entry (snd (summarize_recipe w g1)) = url_entry g1.
Proof.
  intros Hurl Hsame.
  destruct (summarize_recipe_run w _ Hurl) as (segs & cs & H & _).
  rewrite (H g1 eq_refl), (H g2 Hsame). repeat split.
Qed.

Lemma run_replaces_previous_output_witness :
  output_text (snd (summarize_recipe fallback_world stale_window))
  = output_text (snd (summarize_recipe fallback_world
                        {| url_entry := lit "example.com/pie";
                           output_text := initial_output;
                           dialogs := []; calls := [] |}))
  /\ dialogs (snd (summarize_recipe fallback_world stale_window)) = [].
Proof.
  destruct (run_replaces_previous_output fallback_world stale_window
              {| url_entry := lit "example.com/pie";
                 output_text := initial_output;
                 dialogs := []; calls := [] |} eq_refl eq_refl)
    as (Hout & Hdialogs & _).
  split; [exact Hout | exact Hdialogs].
Defined.

(** The calls of step 1, whatever the window. *)
Lemma step1_calls (w : world) (url : pystr) :
  exists cs,
    fallback_calls w url cs
    /\ forall g, calls (snd (step1 w url g)) = calls g ++ ScrapeMe url :: cs.
Proof.
  unfold fallback_calls. run_step1. simpl.
  destruct (scrape_me w url) as [sc | e] eqn:Hnative; simpl.
  { exists []. split; [now left | reflexivity]. }
  destruct (is_WebsiteNotImplementedError e) eqn:Hcls.
  2:{ exists []. split; [now left | reflexivity]. }
  destruct (requests_get w url) as [resp | e1] eqn:Hget; simpl.
  2:{ exists [RequestsGet url user_agent 12]. split.
      - right. exists e. split; [reflexivity|]. split; [exact Hcls|].
        now left.
      - intros g. destruct (is_RequestException e1); simpl;
          now rewrite <- app_assoc. }
  destruct (status_error resp) as [e2 |] eqn:Hst; simpl.
  { exists [RequestsGet url user_agent 12]. split.
    - right. exists e. split; [reflexivity|]. split; [exact Hcls|].
      now left.
    - intros g. destruct (is_RequestException e2); simpl;
        now rewrite <- app_assoc. }
  exists [RequestsGet url user_agent 12; ScrapeHtml (text resp) url]. split.
  - right. exists e. split; [reflexivity|]. split; [exact Hcls|].
    right. now exists resp.
  - intros g. destruct (scrape_html w (text resp) url) as [sc | e3]; simpl.
    + now rewrite <- !app_assoc.
    + destruct (is_RequestException e3); simpl; now rewrite <- !app_assoc.
Qed.

(** X3.  A run on a non-empty URL calls the native adapter once, on the
    prefixed URL.  It then fetches the page at most once, from the same
    URL, with the program's user agent and a timeout of 12 seconds, and
    only when the adapter raised [WebsiteNotImplementedError]; the generic
    adapter is called at most once, on the fetched text.  Nothing is tried
    twice. *)
Theorem one_attempt_per_library (w : world) (g : gui) :
  is_empty (strip (url_entry g)) = false ->
  let url := prefix_scheme (strip (url_entry g)) in
  exists cs,
    calls (snd (summarize_recipe w g)) = calls g ++ ScrapeMe url :: cs
    /\ fallback_calls w url cs.
Proof.
  intros Hurl url.
  destruct (step1_calls w url) as (cs & Hshape & Hcalls).
  exists cs. split; [|exact Hshape].
  rewrite (summarize_recipe_started w g Hurl). fold url.
  specialize (Hcalls (loading g)).
  unfold def, bind.
  destruct (step1 w url (loading g)) as [[[sc fb] | e |] g1]; cbn [snd] in *.
  - destruct (step2_shape sc fb) as (segs & H2 & _). rewrite H2.
    cbn [snd window calls]. rewrite app_nil_r, Hcalls.
    unfold loading, window. cbn [calls]. now rewrite app_nil_r.
  - rewrite Hcalls. unfold loading, window. cbn [calls].
    now rewrite app_nil_r.
  - rewrite Hcalls. unfold loading, window. cbn [calls].
    now rewrite app_nil_r.
Qed.

Lemma one_attempt_per_library_witness :
  exists cs,
    calls (snd (summarize_recipe fallback_world stale_window))
    = [] ++ ScrapeMe (lit "https://example.com/pie") :: cs
    /\ fallback_calls fallback_world (lit "https://example.com/pie") cs.
Proof.
  exact (one_attempt_per_library fallback_world stale_window eq_refl).
Defined.

(** ** The loops of step 2 *)

(** The lines [splitlines] returns: [inv] holds of the line being read,
    [ok] of every character that is not a line boundary. *)
Lemma splitlines_from_Forall (inv line : pystr -> Prop) (ok : N -> Prop) :
  (forall cur, inv cur -> line (rev cur)) ->
  inv [] ->
  (forall c cur, inv cur -> ok c -> inv (c :: cur)) ->
  forall n s,
    (List.length s <= n)%nat ->
    (forall c, In c s -> islinebreak c = false -> ok c) ->
    forall cur, inv cur -> Forall line (splitlines_from cur s).
Proof.
  intros Hline Hnil Hpush.
  induction n as [|n IH]; intros s Hlen Hok cur Hcur.
  - destruct s; [|simpl in Hlen; lia]. simpl.
    destruct cur; [constructor | repeat constructor; now apply Hline].
  - destruct s as [|c s]; simpl.
    { destruct cur; [constructor | repeat constructor; now apply Hline]. }
    simpl in Hlen.
    destruct (islinebreak c) eqn:Hc.
    + destruct s as [|d s'].
      { repeat constructor. now apply Hline. }
      destruct ((c =? 13) && (d =? 10)).
      * constructor; [now apply Hline|].
        apply IH; [simpl in Hlen; lia | | exact Hnil].
        intros x Hx. apply Hok. now right; right.
      * constructor; [now apply Hline|].
        apply IH; [lia | | exact Hnil].
        intros x Hx. apply Hok. now right.
    + apply IH; [lia | |].
      * intros x Hx. apply Hok. now right.
      * apply Hpush; [exact Hcur|]. apply Hok; [now left | exact Hc].
Qed.

Lemma splitlines_one_line_each (s : pystr) : Forall one_line (splitlines s).
Proof.
  unfold splitlines.
  apply (splitlines_from_Forall
           (fun cur => forallb (fun c => negb (islinebreak c)) cur = true)
           one_line
           (fun c => islinebreak c = false)) with (n := List.length s).
  - intros cur H. unfold one_line. rewrite forallb_forall in *.
    intros c Hc. apply H. now apply in_rev.
  - reflexivity.
  - intros c cur H Hc. cbn [forallb]. now rewrite Hc, H.
  - apply Nat.le_refl.
  - auto.
  - reflexivity.
Qed.

Lemma splitlines_chars (P : N -> Prop) (s : pystr) :
  Forall P s -> Forall (Forall P) (splitlines s).
Proof.
  intros H. unfold splitlines.
  apply (splitlines_from_Forall (Forall P) (Forall P) P)
    with (n := List.length s).
  - intros cur Hcur. now apply Forall_rev.
  - constructor.
  - intros c cur Hcur Hc. now constructor.
  - apply Nat.le_refl.
  - intros c Hc _. rewrite Forall_forall in H. now apply H.
  - constructor.
Qed.

Lemma nth_error_enumerate {A} (xs : list A) (start i : nat) (x : A) :
  nth_error xs i = Some x ->
  nth_error (enumerate start xs) i = Some ((start + i)%nat, x).
Proof.
  unfold enumerate. revert start i.
  induction xs as [|a xs IH]; intros start i H; [now destruct i|].
  destruct i as [|i]; cbn in *.
  - injection H as ->. now rewrite Nat.add_0_r.
  - rewrite (IH (S start) i H). now rewrite Nat.add_succ_r.
Qed.

(** X5.  When [ingredients()] returns a non-empty list, the paragraph is
    the heading "Ingredients:", one bulleted body segment per ingredient,
    trimmed, in the order of the list (one that is blank gets its bullet
    too), and a blank line.  When it returns [None] or an empty list the
    paragraph is the one heading "Ingredients: (not found)". *)
Theorem ingredients_are_listed_in_order (sc : scraper) :
  (forall items,
      ingredients sc = Returns (Some items) ->
      items <> [] ->
      writes (ingredients_paragraph sc) (Normal tt)
        (Seg (lit "Ingredients:" ++ [nl]) (Some Heading)
           :: map bullet_line items ++ [Seg [nl] None]))
  /\ (ingredients sc = Returns None \/ ingredients sc = Returns (Some []) ->
      writes (ingredients_paragraph sc) (Normal tt)
        [Seg (lit "Ingredients: (not found)" ++ [nl; nl]) (Some Heading)]).
Proof.
  split.
  - intros items H Hne. unfold ingredients_paragraph. rewrite H.
    apply (writes_bind _ _ (Some items) [] _ _ (writes_ret _)).
    destruct items as [|item items]; [now contradiction Hne|].
    apply (writes_bind _ _ tt [_] _ (_ ++ [_]) (writes_insert _ _)).
    apply (writes_bind _ _ tt _ _ [_]).
    + apply for_each_writes. intros x. apply writes_insert.
    + apply writes_insert.
  - intros [H | H]; unfold ingredients_paragraph; rewrite H.
    + apply (writes_bind _ _ None [] _ _ (writes_ret _)). apply writes_insert.
    + apply (writes_bind _ _ (Some []) [] _ _ (writes_ret _)).
      apply writes_insert.
Qed.

Lemma ingredients_are_listed_in_order_witness :
  writes (ingredients_paragraph apple_pie) (Normal tt)
    [ Seg (lit "Ingredients:" ++ [nl]) (Some Heading);
      Seg ([bullet; 32] ++ lit "2 apples" ++ [nl]) (Some Body);
      Seg ([bullet; 32] ++ lit "1 crust" ++ [nl]) (Some Body);
      Seg ([bullet; 32; nl]) (Some Body);
      Seg [nl] None ]
  /\ writes (ingredients_paragraph test_pie) (Normal tt)
       [Seg (lit "Ingredients: (not found)" ++ [nl; nl]) (Some Heading)].
Proof.
  destruct (ingredients_are_listed_in_order apple_pie) as [Hitems _].
  destruct (ingredients_are_listed_in_order test_pie) as [_ Hnone].
  split.
  - refine (Hitems _ eq_refl _). discriminate.
  - exact (Hnone (or_introl eq_refl)).
Defined.

Lemma steps_of_blank (txt : pystr) :
  forallb isspace txt = true -> steps_of txt = [].
Proof.
  intros H. unfold steps_of.
  assert (Hlines : Forall (Forall (fun c => isspace c = true))
                     (splitlines txt))
    by (apply splitlines_chars, Forall_forall; now apply forallb_forall).
  induction Hlines as [|l ls Hl _ IH]; [reflexivity|].
  cbn [map filter].
  rewrite (strip_whitespace_only l)
    by (apply forallb_forall; now apply Forall_forall).
  exact IH.
Qed.

Lemma steps_of_lines (txt : pystr) :
  Forall (fun step => step <> [] /\ one_line step /\ strip step = step)
         (steps_of txt).
Proof.
  unfold steps_of. pose proof (splitlines_one_line_each txt) as Hlines.
  induction Hlines as [|l ls Hl _ IH]; [constructor|].
  cbn [map filter]. destruct (strip l) as [|c r] eqn:E; [exact IH|].
  cbn [is_empty negb]. constructor; [|exact IH].
  split; [discriminate|]. rewrite <- E.
  split; [now apply one_line_strip | apply strip_idem].
Qed.

(** X6.  When [instructions()] returns a non-empty text, the paragraph is
    the heading "Instructions:", one body segment per step, and a blank
    line.  The steps are the lines of the text that are not blank, each
    trimmed, in their order, and the step in place [i] (from 0) carries the
    number [i + 1].  A text of blank lines only gives the heading with no
    step under it, not the placeholder. *)
Theorem steps_are_numbered_lines (sc : scraper) (txt : pystr) :
  instructions sc = Returns (Some txt) ->
  txt <> [] ->
  writes (instructions_paragraph sc) (Normal tt)
    (Seg (lit "Instructions:" ++ [nl]) (Some Heading)
       :: map numbered_step (enumerate 1 (steps_of txt)) ++ [Seg [nl] None])
  /\ (forall i step,
        nth_error (steps_of txt) i = Some step ->
        nth_error (map numbered_step (enumerate 1 (steps_of txt))) i
        = Some (Seg (str_of_N (N.of_nat (S i)) ++ lit ". " ++ step ++ [nl])
                    (Some Body)))
  /\ Forall (fun step => step <> [] /\ one_line step /\ strip step = step)
            (steps_of txt)
  /\ (forallb isspace txt = true ->
      writes (instructions_paragraph sc) (Normal tt)
        [Seg (lit "Instructions:" ++ [nl]) (Some Heading); Seg [nl] None]).
Proof.
  intros H Hne.
  assert (Hwrites :
    writes (instructions_paragraph sc) (Normal tt)
      (Seg (lit "Instructions:" ++ [nl]) (Some Heading)
         :: map numbered_step (enumerate 1 (steps_of txt))
              ++ [Seg [nl] None])).
  { unfold instructions_paragraph. rewrite H.
    apply (writes_bind _ _ (Some txt) [] _ _ (writes_ret _)).
    destruct txt as [|c txt]; [now contradiction Hne|].
    apply (writes_bind _ _ tt [_] _ (_ ++ [_]) (writes_insert _ _)).
    apply (writes_bind _ _ tt _ _ [_]).
    - apply for_each_writes. intros [i step]. apply writes_insert.
    - apply writes_insert. }
  split; [exact Hwrites|]. split; [|split].
  - intros i step Hstep.
    rewrite nth_error_map, (nth_error_enumerate _ 1 i step Hstep).
    reflexivity.
  - apply steps_of_lines.
  - intros Hblank. now rewrite (steps_of_blank txt Hblank) in Hwrites.
Qed.

Lemma steps_are_numbered_lines_witness :
  writes (instructions_paragraph apple_pie) (Normal tt)
    [ Seg (lit "Instructions:" ++ [nl]) (Some Heading);
      Seg (lit "1. Peel." ++ [nl]) (Some Body);
      Seg (lit "2. Bake." ++ [nl]) (Some Body);
      Seg [nl] None ].
Proof.
  refine (proj1 (steps_are_numbered_lines apple_pie _ eq_refl _)).
  discriminate.
Defined.

(** ** The time line *)

Lemma time_entry_cases sc times name label g :
  (exists part,
      time_part label part
      /\ time_entry sc times (name, label) g = (Normal (times ++ part), g))
  \/ exists e, time_entry sc times (name, label) g = (Raised e, g).
Proof.
  unfold time_entry, time_part, try_except, bind, of_call, ret, raise.
  destruct (attr sc name) as [[[| z | [q | | neg] | v] | e] |].
  - left. exists []. rewrite app_nil_r. now split; [left|].
  - left. eexists. split; [right; eexists; reflexivity | reflexivity].
  - left. eexists. split; [right; eexists; reflexivity | reflexivity].
  - left. exists []. rewrite app_nil_r. now split; [left|].
  - right. eexists. reflexivity.
  - left. eexists. split; [right; eexists; reflexivity | reflexivity].
  - destruct (is_TypeError e || is_ValueError e).
    + left. exists []. rewrite app_nil_r. now split; [left|].
    + right. eexists. reflexivity.
  - left. exists []. rewrite app_nil_r. now split; [left|].
Qed.

(** X7.  The time line has at most three entries, in the order Total,
    Prep, Cook, each starting with its label and a colon.  With no entry
    it is "Times not available", followed by " (check original page)" when
    the fallback was used; with entries it is the entries joined by " | ",
    and the fallback adds nothing. *)
Theorem time_line_parts (sc : scraper) (g : gui) (times : list pystr) :
  fst (for_fold time_methods (time_entry sc) [] g) = Normal times ->
  (exists total prep cook,
      times = total ++ prep ++ cook
      /\ time_part (lit "Total") total
      /\ time_part (lit "Prep") prep
      /\ time_part (lit "Cook") cook)
  /\ forall fb,
      time_line times fb
      = if is_empty times
        then lit "Times not available"
               ++ (if fb then lit " (check original page)" else [])
        else join (lit " | ") times.
Proof.
  intros H. split.
  - unfold time_methods in H. cbn [for_fold] in H. unfold bind in H.
    destruct (time_entry_cases sc [] "total_time"%string (lit "Total") g)
      as [(total & Ht & E1) | (e & E1)]; rewrite E1 in H; [|discriminate].
    destruct (time_entry_cases sc ([] ++ total) "preptime"%string
                (lit "Prep") g)
      as [(prep & Hp & E2) | (e & E2)]; rewrite E2 in H; [|discriminate].
    destruct (time_entry_cases sc (([] ++ total) ++ prep) "cooktime"%string
                (lit "Cook") g)
      as [(cook & Hc & E3) | (e & E3)]; rewrite E3 in H; [|discriminate].
    cbn [fst ret] in H. injection H as <-.
    exists total, prep, cook. cbn [app]. now rewrite <- app_assoc.
  - intros fb. unfold time_line.
    destruct times, fb; cbn [is_empty andb]; rewrite ?app_nil_r;
      reflexivity.
Qed.

Lemma time_line_parts_witness :
  exists total prep cook,
    [lit "Total: 90 min"; lit "Cook: 1 hour"] = total ++ prep ++ cook
    /\ time_part (lit "Total") total
    /\ time_part (lit "Prep") prep
    /\ time_part (lit "Cook") cook.
Proof.
  exact (proj1 (time_line_parts apple_pie stale_window
                  [lit "Total: 90 min"; lit "Cook: 1 hour"] eq_refl)).
Defined.

Lemma step2_without_when sc name fb g :
  (forall times m g0,
      time_entry sc times m g0 = time_entry (without sc name) times m g0) ->
  step2 sc fb g = step2 (without sc name) fb g.
Proof.
  intros Hentry.
  unfold step2, try_except, build_summary, write_summary, overview_paragraph,
    ingredients_paragraph, instructions_paragraph, bind, output_delete_all.
  cbn [title yields description ingredients instructions without].
  destruct (of_call (title sc) _) as [[t | e1 |] g1]; try reflexivity.
  destruct (of_call (yields sc) g1) as [[y | e2 |] g2]; try reflexivity.
  destruct (of_call (description sc) g2) as [[d | e3 |] g3]; try reflexivity.
  now rewrite (for_fold_ext time_methods (time_entry sc)
                 (time_entry (without sc name)) Hentry).
Qed.

Lemma time_entry_nan sc name times m g :
  attr sc name = Some (Returns (TFloat NaN)) ->
  time_entry sc times m g = time_entry (without sc name) times m g.
Proof.
  intros Hattr. destruct m as [method_name label].
  unfold time_entry, without. cbn [attr].
  destruct (String.eqb method_name name) eqn:E; [|reflexivity].
  apply String.eqb_eq in E. subst method_name. now rewrite Hattr.
Qed.

(** X8.  A time accessor that returns a number is shown as "<Label>: <n>
    min" with [n] the number truncated toward zero.  One that returns NaN
    is passed over and the run is the run on the scraper without it (the
    [ValueError] of [int] is caught in the loop).  One that returns an
    infinity raises [OverflowError], which the loop does not catch: when it
    is [total_time], the widget ends with the error segment alone. *)
Theorem float_durations :
  (forall sc name label times g q,
      attr sc name = Some (Returns (TFloat (Finite q))) ->
      exists n,
        time_entry sc times (name, label) g
        = (Normal (times ++ [label ++ lit ": " ++ str_of_Z n ++ lit " min"]),
           g)
        /\ (Z.abs n * Z.pos (Qden q) <= Z.abs (Qnum q)
            < (Z.abs n + 1) * Z.pos (Qden q))%Z
        /\ (0 <= n * Qnum q)%Z)
  /\ (forall sc name fb g,
      attr sc name = Some (Returns (TFloat NaN)) ->
      step2 sc fb g = step2 (without sc name) fb g)
  /\ (forall sc fb g t y d negative,
      title sc = Returns t ->
      yields sc = Returns y ->
      description sc = Returns d ->
      attr sc "total_time"%string
        = Some (Returns (TFloat (Infinity negative))) ->
      step2 sc fb g
      = (Normal tt,
         window g
           [parsing_issue
              (Exn OverflowError
                   (lit "cannot convert float infinity to integer"))]
           [])).
Proof.
  split; [|split].
  - intros sc name label times g q Hattr.
    exists (Z.quot (Qnum q) (Z.pos (Qden q))). split.
    + unfold time_entry. now rewrite Hattr.
    + destruct int_of_float_truncates as (_ & _ & H). now apply H.
  - intros sc name fb g Hattr. apply step2_without_when.
    intros times m g0. now apply time_entry_nan.
  - intros sc fb g t y d negative Ht Hy Hd Hattr.
    unfold step2, try_except, build_summary, write_summary,
      overview_paragraph, bind at 1 2 3 4 5, output_delete_all.
    rewrite Ht, Hy, Hd. cbn [of_call ret].
    unfold time_methods. cbn [for_fold]. unfold bind at 1, time_entry.
    rewrite Hattr. cbn.
    unfold output_insert, window, parsing_issue. cbn.
    now rewrite app_nil_r.
Qed.

Lemma float_durations_witness :
  output_text (snd (step2 endless_pie false stale_window))
  = [parsing_issue
       (Exn OverflowError (lit "cannot convert float infinity to integer"))]
  /\ nth_error (output_text (snd (step2 apple_pie false stale_window))) 2
     = Some (Seg (lit "Total: 90 min | Cook: 1 hour" ++ [nl]) (Some Heading)).
Proof.
  destruct float_durations as (_ & Hnan & Hinf).
  rewrite (Hinf endless_pie false stale_window (Some (lit "Endless Pie"))
             None None false eq_refl eq_refl eq_refl eq_refl).
  rewrite (Hnan apple_pie "preptime"%string false stale_window eq_refl).
  split; reflexivity.
Defined.

(** * Properties of [save_and_open] *)

(** Discharges the first premise of [H] with [tac]. *)
Ltac premise H tac :=
  match type of H with
  | ?P -> _ =>
      let Hp := fresh in
      assert (Hp : P) by tac; specialize (H Hp); clear Hp
  end.

Lemma pystr_eqb_eq (a b : pystr) : pystr_eqb a b = true <-> a = b.
Proof.
  revert b. induction a as [|x a IH]; intros [|y b]; cbn;
    try (split; [discriminate | discriminate]); [tauto|].
  rewrite andb_true_iff, N.eqb_eq, IH.
  split; [intros [-> ->]; reflexivity | intros [= -> ->]; now split].
Qed.

Lemma pystr_eqb_refl (a : pystr) : pystr_eqb a a = true.
Proof. now apply pystr_eqb_eq. Qed.

Lemma disk_write_same files path content :
  disk_write files path content path = Some content.
Proof. unfold disk_write. now rewrite pystr_eqb_refl. Qed.

Lemma disk_write_other files path content p :
  p <> path -> disk_write files path content p = files p.
Proof.
  intros H. unfold disk_write.
  destruct (pystr_eqb p path) eqn:E; [|reflexivity].
  apply pystr_eqb_eq in E. now contradiction H.
Qed.

(** The name with the time stamp differs from the name without. *)
Lemma stamped_name_differs (name stamp : pystr) :
  name ++ lit ".txt" <> name ++ [underscore] ++ stamp ++ lit ".txt".
Proof. intros H. apply app_inv_head in H. discriminate. Qed.

(** X10.  A save never touches the file "<title>.txt" when it exists
    already: whatever the machine does, that file holds afterwards what it
    held before.  When the guard lets the text through, the text goes to
    the name with the time stamp, "<title>_YYYY-MM-DD_HHMM.txt", which is
    another name: once written, that file holds the header, the URL and
    the text. *)
Theorem save_keeps_existing_file (h : host) (d : desk) (content : pystr) :
  files d (base_name (win d)) = Some content ->
  files (save_and_open h d) (base_name (win d)) = Some content
  /\ (nothing_to_save (text_to_save (win d)) = false ->
      let title := title_to_save (win d) in
      let stamped :=
        clean_title title ++ [underscore] ++ timestamp (datetime_now h)
          ++ lit ".txt" in
      let written :=
        lit "RecipeCore Summary " ++ [en_dash; 32] ++ title ++ [nl]
          ++ repeat 61 50 ++ [nl; nl]
          ++ lit "Source URL: " ++ strip (url_entry (win d)) ++ [nl; nl]
          ++ text_to_save (win d) in
      stamped <> base_name (win d)
      /\ (write_file h stamped written = Wrote ->
          files (save_and_open h d) stamped = Some written)).
Proof.
  intros Hfile.
  assert (Hexists : path_exists (files d)
                      (clean_title (title_to_save (win d)) ++ lit ".txt")
                    = true).
  { unfold path_exists. fold (base_name (win d)). now rewrite Hfile. }
  assert (Hother : base_name (win d)
                   <> clean_title (title_to_save (win d)) ++ [underscore]
                        ++ timestamp (datetime_now h) ++ lit ".txt")
    by apply stamped_name_differs.
  split.
  - unfold save_and_open.
    destruct (nothing_to_save (text_to_save (win d))); [exact Hfile|].
    unfold file_path. fold (title_to_save (win d)). rewrite Hexists.
    destruct (write_file h _ _) as [| e | e partial]; cbn [files].
    + destruct (launch_error h _); cbn [files];
        now rewrite (disk_write_other _ _ _ _ Hother).
    + exact Hfile.
    + now rewrite (disk_write_other _ _ _ _ Hother).
  - intros Hguard title stamped written. subst title stamped written.
    split; [intros E; now apply Hother|].
    intros Hwrote. unfold save_and_open. rewrite Hguard.
    unfold file_path. fold (title_to_save (win d)). rewrite Hexists.
    unfold file_content. rewrite Hwrote.
    destruct (launch_error h _); cbn [files]; apply disk_write_same.
Qed.

Lemma save_keeps_existing_file_witness :
  exists first,
    files (save_and_open linux_box (fresh_desk pie_window))
          (lit "Test_Pie.txt") = Some first
    /\ files (save_and_open linux_box
                (save_and_open linux_box (fresh_desk pie_window)))
             (lit "Test_Pie.txt") = Some first
    /\ path_exists
         (files (save_and_open linux_box
                   (save_and_open linux_box (fresh_desk pie_window))))
         (lit "Test_Pie_2026-03-09_0705.txt") = true.
Proof.
  exists (file_content (lit "Test Pie") (lit "example.com/pie")
            (text_to_save pie_window)).
  pose proof (save_keeps_existing_file linux_box
                (save_and_open linux_box (fresh_desk pie_window))
                (file_content (lit "Test Pie") (lit "example.com/pie")
                   (text_to_save pie_window))) as Hkept.
  premise Hkept ltac:(vm_compute; reflexivity).
  destruct Hkept as [Hkept _].
  split; [vm_compute; reflexivity|].
  split; [|vm_compute; reflexivity].
  rewrite <- Hkept. apply f_equal. vm_compute. reflexivity.
Defined.

(** X11.  When the guard lets the text through and the file cannot be
    opened for writing, nothing is written, nothing is launched, and one
    "Save Error" box shows "Could not save/open file:" and the exception's
    text.  When a write fails, the file holds what was written until then,
    nothing is launched and the same box is shown.  When the file was
    written and the program that opens it fails, the file stays on the
    disk with the full content, and the user gets the same "Save Error"
    box, not the "Saved & Opened" one. *)
Theorem save_failures (h : host) (d : desk) :
  nothing_to_save (text_to_save (win d)) = false ->
  let title := title_to_save (win d) in
  let path := file_path (path_exists (files d)) (datetime_now h) title in
  let content :=
    lit "RecipeCore Summary " ++ [en_dash; 32] ++ title ++ [nl]
      ++ repeat 61 50 ++ [nl; nl]
      ++ lit "Source URL: " ++ strip (url_entry (win d)) ++ [nl; nl]
      ++ text_to_save (win d) in
  let cmd :=
    match sys_platform h with
    | Darwin => SubprocessRun [lit "open"; path]
    | Win32 => OsStartfile path
    | OtherPlatform => SubprocessRun [lit "xdg-open"; path]
    end in
  let error_box e :=
    ShowError (lit "Save Error")
              (lit "Could not save/open file:" ++ [nl] ++ msg e) in
  (forall e,
      write_file h path content = OpenFailed e ->
      save_and_open h d
      = {| win := win d; files := files d;
           boxes := boxes d ++ [error_box e]; launched := launched d |})
  /\ (forall e partial,
      write_file h path content = WriteFailed e partial ->
      files (save_and_open h d) path = Some partial
      /\ boxes (save_and_open h d) = boxes d ++ [error_box e]
      /\ launched (save_and_open h d) = launched d
      /\ win (save_and_open h d) = win d)
  /\ (forall e,
      write_file h path content = Wrote ->
      launch_error h cmd = Some e ->
      files (save_and_open h d) path = Some content
      /\ boxes (save_and_open h d) = boxes d ++ [error_box e]
      /\ launched (save_and_open h d) = launched d ++ [cmd]
      /\ win (save_and_open h d) = win d).
Proof.
  intros Hguard title path content cmd error_box.
  subst title path content cmd error_box.
  split; [|split].
  - intros e Hopen. unfold save_and_open. rewrite Hguard.
    fold (title_to_save (win d)). unfold file_content.
    now rewrite Hopen.
  - intros e partial Hfailed. unfold save_and_open. rewrite Hguard.
    fold (title_to_save (win d)). unfold file_content.
    rewrite Hfailed. cbn [files boxes launched win].
    now rewrite disk_write_same.
  - intros e Hwrote Hlaunch. unfold save_and_open. rewrite Hguard.
    fold (title_to_save (win d)). unfold file_content, opener.
    rewrite Hwrote, Hlaunch. cbn [files boxes launched win].
    now rewrite disk_write_same.
Qed.

Lemma save_failures_witness :
  boxes (save_and_open read_only (fresh_desk pie_window))
  = [ShowError (lit "Save Error")
       (lit "Could not save/open file:" ++ [nl] ++ lit "Permission denied")]
  /\ files (save_and_open read_only (fresh_desk pie_window))
           (lit "Test_Pie.txt") = None
  /\ path_exists (files (save_and_open no_opener (fresh_desk pie_window)))
                 (lit "Test_Pie.txt") = true
  /\ boxes (save_and_open no_opener (fresh_desk pie_window))
     = [ShowError (lit "Save Error")
          (lit "Could not save/open file:" ++ [nl]
             ++ lit "No such file or directory: 'xdg-open'")].
Proof.
  pose proof (save_failures read_only (fresh_desk pie_window)) as Hro.
  premise Hro ltac:(vm_compute; reflexivity).
  destruct Hro as (Hopen & _).
  pose proof (save_failures no_opener (fresh_desk pie_window)) as Hno.
  premise Hno ltac:(vm_compute; reflexivity).
  destruct Hno as (_ & _ & Hlaunch).
  specialize (Hopen (Exn OtherException (lit "Permission denied"))).
  premise Hopen ltac:(vm_compute; reflexivity).
  specialize (Hlaunch
    (Exn OtherException (lit "No such file or directory: 'xdg-open'"))).
  do 2 premise Hlaunch ltac:(vm_compute; reflexivity).
  destruct Hlaunch as (_ & Hboxes & _).
  rewrite Hopen, Hboxes.
  repeat split; vm_compute; reflexivity.
Defined.

(** X12.  When a summary was rendered (title, yields and description
    read without an error) with a shown title of one line that is not
    blank, and the guard lets the text through, a save on a directory
    without "<cleaned title>.txt" writes that file: the header with the
    shown title, the URL of the entry, then the widget's text.  It then
    starts the platform's opener on the file and shows the "Saved &
    Opened" box, and leaves the window as it was. *)
Theorem summary_is_saved_under_its_title
    (sc : scraper) (fb : bool) (g : gui) (h : host) (d : desk)
    (t y descr : option pystr) (times : list pystr) :
  title sc = Returns t ->
  yields sc = Returns y ->
  description sc = Returns descr ->
  fst (for_fold time_methods (time_entry sc) [] g) = Normal times ->
  win d = snd (step2 sc fb g) ->
  let shown := strip (or_default t (lit "Recipe (title not found)")) in
  one_line (or_default t (lit "Recipe (title not found)")) ->
  shown <> [] ->
  nothing_to_save (text_to_save (win d)) = false ->
  let path := clean_title shown ++ lit ".txt" in
  let content :=
    lit "RecipeCore Summary " ++ [en_dash; 32] ++ shown ++ [nl]
      ++ repeat 61 50 ++ [nl; nl]
      ++ lit "Source URL: " ++ strip (url_entry g) ++ [nl; nl]
      ++ text_to_save (win d) in
  let cmd :=
    match sys_platform h with
    | Darwin => SubprocessRun [lit "open"; path]
    | Win32 => OsStartfile path
    | OtherPlatform => SubprocessRun [lit "xdg-open"; path]
    end in
  files d path = None ->
  write_file h path content = Wrote ->
  launch_error h cmd = None ->
  save_and_open h d
  = {| win := win d;
       files := disk_write (files d) path content;
       boxes := boxes d
         ++ [ShowInfo (lit "Saved & Opened")
               (lit "Saved as:" ++ [nl] ++ path ++ [nl]
                  ++ lit "Opened in default app (TextEdit on Mac) for printing/editing.")];
       launched := launched d ++ [cmd] |}.
Proof.
  intros Ht Hy Hd Htimes Hwin shown Hline Hne Hguard path content cmd
         Hnew Hwrote Hlaunch.
  assert (Htitle : first_line_title (text_to_save (win d)) = shown)
    by (rewrite Hwin;
        exact (saved_title_is_shown_title sc fb g t y descr times
                 Ht Hy Hd Htimes Hline Hne)).
  assert (Hurl : url_entry (win d) = url_entry g).
  { destruct (step2_shape sc fb) as (segs & H2 & _).
    now rewrite Hwin, H2. }
  assert (Hpath : file_path (path_exists (files d)) (datetime_now h) shown
                  = path).
  { unfold file_path, path_exists. fold path. now rewrite Hnew. }
  unfold save_and_open. rewrite Hguard, Htitle, Hurl, Hpath.
  change (write_file h path
            (file_content shown (strip (url_entry g)) (text_to_save (win d)))
          = Wrote) in Hwrote.
  change (launch_error h (opener (sys_platform h) path) = None) in Hlaunch.
  rewrite Hwrote. cbv zeta. rewrite Hlaunch. reflexivity.
Qed.

Lemma summary_is_saved_under_its_title_witness :
  files (save_and_open linux_box
           (fresh_desk (snd (step2 apple_pie false stale_window))))
        (lit "Moms_Apple_Pie.txt")
  = Some (file_content (lit "Mom's Apple Pie!") (lit "example.com/pie")
            (text_to_save (snd (step2 apple_pie false stale_window))))
  /\ launched (save_and_open linux_box
                 (fresh_desk (snd (step2 apple_pie false stale_window))))
     = [SubprocessRun [lit "xdg-open"; lit "Moms_Apple_Pie.txt"]]
  /\ files (save_and_open linux_box
              (fresh_desk (snd (step2 zurek false stale_window))))
           (clean_title zurek_title ++ lit ".txt")
     = Some (file_content zurek_title (lit "example.com/pie")
               (text_to_save (snd (step2 zurek false stale_window)))).
Proof.
  pose proof (summary_is_saved_under_its_title apple_pie false stale_window
                linux_box
                (fresh_desk (snd (step2 apple_pie false stale_window)))
                (Some (lit "Mom's Apple Pie!")) (Some (lit "8 servings"))
                (Some (lit "A family classic."))
                [lit "Total: 90 min"; lit "Cook: 1 hour"]) as Hsave.
  cbv zeta in Hsave.
  do 6 premise Hsave ltac:(vm_compute; reflexivity).
  premise Hsave ltac:(vm_compute; discriminate).
  do 4 premise Hsave ltac:(vm_compute; reflexivity).
  pose proof (summary_is_saved_under_its_title zurek false stale_window
                linux_box
                (fresh_desk (snd (step2 zurek false stale_window)))
                (Some zurek_title) None
                (Some (repeat 120 120)) []) as Hzurek.
  cbv zeta in Hzurek.
  do 6 premise Hzurek ltac:(vm_compute; reflexivity).
  premise Hzurek ltac:(vm_compute; discriminate).
  do 4 premise Hzurek ltac:(vm_compute; reflexivity).
  rewrite Hsave, Hzurek. repeat split; vm_compute; reflexivity.
Defined.

(** ** Where the file goes *)

Lemma word_or_hyphen_in_name (c : N) :
  word_or_hyphen c = true -> in_file_name c = true.
Proof.
  intros H. unfold in_file_name.
  destruct (c =? 47) eqn:E1;
    [apply N.eqb_eq in E1; subst c; vm_compute in H; discriminate|].
  destruct (c =? 92) eqn:E2;
    [apply N.eqb_eq in E2; subst c; vm_compute in H; discriminate|].
  destruct (c =? 0) eqn:E3;
    [apply N.eqb_eq in E3; subst c; vm_compute in H; discriminate|].
  reflexivity.
Qed.

Lemma isdigit_in_name (c : N) : isdigit c = true -> in_file_name c = true.
Proof.
  intros H. unfold in_file_name.
  destruct (c =? 47) eqn:E1;
    [apply N.eqb_eq in E1; subst c; vm_compute in H; discriminate|].
  destruct (c =? 92) eqn:E2;
    [apply N.eqb_eq in E2; subst c; vm_compute in H; discriminate|].
  destruct (c =? 0) eqn:E3;
    [apply N.eqb_eq in E3; subst c; vm_compute in H; discriminate|].
  reflexivity.
Qed.

Lemma digits_in_name (n : nat) (s : pystr) :
  digits n s -> forallb in_file_name s = true.
Proof. intros [_ H]. exact (forallb_impl _ _ s isdigit_in_name H). Qed.

Lemma clean_title_in_name (t : pystr) :
  forallb in_file_name (clean_title t) = true.
Proof.
  rewrite clean_title_stripped.
  destruct (stripped_title t) as [|c s] eqn:E; [reflexivity|].
  cbn [is_empty]. rewrite <- E.
  apply forallb_forall. intros x Hx. apply word_or_hyphen_in_name.
  pose proof (stripped_title_chars t) as H. rewrite Forall_forall in H.
  now apply H.
Qed.

(** X13.  The file is written into the working directory, whatever the
    title: the path [save_and_open] builds from a Latin-1 title holds no
    "/", no backslash and no NUL, with or without the time stamp, and
    ends with ".txt". *)
Theorem saved_file_stays_in_directory
    (exists_ : pystr -> bool) (now : datetime) (t : pystr) :
  latin1 t ->
  valid_datetime now ->
  forallb in_file_name (file_path exists_ now t) = true
  /\ exists stem, file_path exists_ now t = stem ++ lit ".txt"
                  /\ stem <> [].
Proof.
  intros _ (Hy & Hm & Hd & Hh & Hmin).
  pose proof (clean_title_in_name t) as Hname.
  assert (Hne : clean_title t <> []).
  { rewrite clean_title_stripped. destruct (stripped_title t); discriminate. }
  unfold file_path. destruct (exists_ _).
  - split.
    + rewrite !forallb_app, Hname. unfold timestamp.
      rewrite !forallb_app.
      rewrite (digits_in_name 4 _ (zero_pad_4_digits (year now) ltac:(lia))).
      rewrite (digits_in_name 2 _ (zero_pad_2_digits (month now) ltac:(lia))).
      rewrite (digits_in_name 2 _ (zero_pad_2_digits (day now) ltac:(lia))).
      rewrite (digits_in_name 2 _ (zero_pad_2_digits (hour now) ltac:(lia))).
      rewrite (digits_in_name 2 _ (zero_pad_2_digits (minute now) ltac:(lia))).
      reflexivity.
    + exists (clean_title t ++ [underscore] ++ timestamp now).
      split; [now rewrite <- !app_assoc|].
      destruct (clean_title t); [now contradiction Hne | discriminate].
  - split.
    + now rewrite forallb_app, Hname.
    + now exists (clean_title t).
Qed.

Lemma saved_file_stays_in_directory_witness :
  forallb in_file_name
    (file_path (fun _ => true) a_monday_morning (lit "../../etc/passwd"))
  = true
  /\ file_path (fun _ => true) a_monday_morning (lit "../../etc/passwd")
     = lit "etcpasswd_2026-03-09_0705.txt".
Proof.
  split; [|reflexivity].
  refine (proj1 (saved_file_stays_in_directory (fun _ => true)
                   a_monday_morning (lit "../../etc/passwd") _ _)).
  - unfold latin1. repeat constructor.
  - unfold valid_datetime, a_monday_morning. simpl. lia.
Defined.

(** ** A run that failed is not saved *)

Lemma contains_startswith (s needle : pystr) :
  startswith s needle = true -> contains s needle = true.
Proof. intros H. destruct s; simpl; rewrite H; reflexivity. Qed.

Lemma dropwhile_suffix p (l : pystr) :
  exists pre, l = pre ++ dropwhile p l.
Proof.
  induction l as [|a l [pre IH]]; [now exists []|]. simpl.
  destruct (p a); [|now exists []].
  exists (a :: pre). simpl. now rewrite <- IH.
Qed.

(** Trimming on the right leaves a prefix. *)
Lemma rstrip_by_prefix p (s : pystr) :
  exists tail, s = rstrip_by p s ++ tail.
Proof.
  unfold rstrip_by. destruct (dropwhile_suffix p (rev s)) as [pre H].
  exists (rev pre). rewrite <- rev_app_distr, <- H. now rewrite rev_involutive.
Qed.

Lemma splitlines_from_some (s cur : pystr) :
  cur <> [] -> splitlines_from cur s <> [].
Proof.
  revert cur. induction s as [|c s IH]; intros cur Hcur.
  - destruct cur; [now contradiction Hcur | discriminate].
  - cbn [splitlines_from]. destruct (islinebreak c).
    + destruct s as [|d s']; [discriminate|].
      destruct ((c =? 13) && (d =? 10)); discriminate.
    + apply IH. discriminate.
Qed.

(** A text has at least as many lines as each of its prefixes. *)
Lemma splitlines_from_prefix (n : nat) :
  forall p q cur,
    (List.length p <= n)%nat ->
    (List.length (splitlines_from cur p)
     <= List.length (splitlines_from cur (p ++ q)))%nat.
Proof.
  induction n as [|n IH]; intros p q cur Hn.
  - destruct p; [|simpl in Hn; lia]. cbn [app splitlines_from].
    destruct cur as [|a cur]; [simpl; lia|].
    pose proof (splitlines_from_some q (a :: cur) ltac:(discriminate)) as H.
    destruct (splitlines_from (a :: cur) q); [now contradiction H|].
    simpl. lia.
  - destruct p as [|c p].
    { cbn [app splitlines_from].
      destruct cur as [|a cur]; [simpl; lia|].
      pose proof (splitlines_from_some q (a :: cur) ltac:(discriminate)) as H.
      destruct (splitlines_from (a :: cur) q); [now contradiction H|].
      simpl. lia. }
    simpl in Hn. cbn [app splitlines_from].
    destruct (islinebreak c).
    + destruct p as [|d p].
      * cbn [app]. destruct q as [|d q]; [simpl; lia|].
        destruct ((c =? 13) && (d =? 10)); simpl; lia.
      * cbn [app]. simpl in Hn.
        destruct ((c =? 13) && (d =? 10)); cbn [List.length];
          apply le_n_S.
        -- apply IH. lia.
        -- apply (IH (d :: p)). simpl. lia.
    + apply IH. lia.
Qed.

Lemma splitlines_prefix (p q : pystr) :
  (List.length (splitlines p) <= List.length (splitlines (p ++ q)))%nat.
Proof. apply (splitlines_from_prefix (List.length p)). lia. Qed.

(** The widget's text after the loading message and an error text [body],
    closed by a line feed: when the message and the error make fewer than
    five lines, the guard of line 182 holds. *)
Lemma loading_text_is_refused (body : pystr) :
  (List.length (splitlines (loading_marker ++ [nl; nl] ++ body)) < 5)%nat ->
  nothing_to_save
    (strip (List.concat [loading_message; body ++ [nl]] ++ [nl]))
  = true.
Proof.
  intros Hlines.
  assert (Htext : exists x tail,
             strip (List.concat [loading_message; body ++ [nl]] ++ [nl])
             = loading_marker ++ x
             /\ [nl; nl] ++ body = x ++ tail).
  { cbn [List.concat]. unfold loading_message.
    rewrite app_nil_r, <- !app_assoc. cbn [app].
    unfold strip, strip_by. unfold lstrip_by.
    rewrite dropwhile_app_keep by (vm_compute; discriminate).
    change (dropwhile isspace loading_marker) with loading_marker.
    change (nl :: nl :: body ++ [nl; nl])
      with (([nl; nl] ++ body) ++ [nl; nl]).
    rewrite app_assoc, rstrip_by_app.
    change (rstrip_by isspace [nl; nl]) with (@nil N). cbn [is_empty].
    rewrite rstrip_by_app.
    destruct (rstrip_by_prefix isspace ([nl; nl] ++ body)) as [tail Htail].
    destruct (rstrip_by isspace ([nl; nl] ++ body)) as [|c x];
      cbn [is_empty].
    - exists [], ([nl; nl] ++ body). split; [|reflexivity].
      now rewrite app_nil_r.
    - exists (c :: x), tail. now split. }
  destruct Htext as (x & tail & -> & Hx).
  unfold nothing_to_save.
  rewrite (contains_startswith _ _ (startswith_app loading_marker x)).
  assert (Hfew : (List.length (splitlines (loading_marker ++ x)) < 5)%nat).
  { eapply Nat.le_lt_trans; [|exact Hlines].
    rewrite Hx, app_assoc. apply splitlines_prefix. }
  apply Nat.ltb_lt in Hfew. rewrite Hfew. apply orb_true_r.
Qed.

Lemma splitlines_blank_line (rest : pystr) :
  splitlines (nl :: rest) = [] :: splitlines rest.
Proof. exact (splitlines_first_line [] rest eq_refl). Qed.

Lemma one_line_app (a b : pystr) : one_line a -> one_line b -> one_line (a ++ b).
Proof. unfold one_line. intros Ha Hb. now rewrite forallb_app, Ha, Hb. Qed.

(** X14.  After a run that stopped in step 1, with an error message of
    one line, there is nothing to save: the widget holds the loading
    message and the error, fewer than five lines.  [save_and_open] shows
    the "Nothing to save" warning, writes no file, starts no program and
    shows no other box. *)
Theorem failed_run_is_not_saved (h : host) (d : desk) :
  step1_failed (win d) ->
  save_and_open h d
  = {| win := {| url_entry := url_entry (win d);
                 output_text := output_text (win d);
                 dialogs := dialogs (win d)
                   ++ [ShowWarning (lit "Nothing to save")
                                   (lit "Run a summary first.")];
                 calls := calls (win d) |};
       files := files d; boxes := boxes d; launched := launched d |}.
Proof.
  intros (e & Hline & Hout).
  assert (Hguard : nothing_to_save (text_to_save (win d)) = true).
  { unfold text_to_save.
    destruct Hout as [-> | [-> | ->]]; cbn [map seg_text parsing_error
      could_not_load fallback_failed].
    - rewrite (app_assoc (lit "Parsing error: ")), (app_assoc _ [nl]),
        (app_assoc _ (lit "Try a different recipe site.")).
      apply loading_text_is_refused.
      rewrite <- !app_assoc. cbn [app].
      rewrite (splitlines_first_line loading_marker) by reflexivity.
      rewrite splitlines_blank_line.
      rewrite app_assoc, splitlines_first_line
        by (apply one_line_app; [reflexivity | exact Hline]).
      vm_compute. lia.
    - rewrite (app_assoc (lit "Could not load page: ")), (app_assoc _ [nl]),
        (app_assoc _ (lit "Try another URL.")).
      apply loading_text_is_refused.
      rewrite <- !app_assoc. cbn [app].
      rewrite (splitlines_first_line loading_marker) by reflexivity.
      rewrite splitlines_blank_line.
      rewrite app_assoc, splitlines_first_line
        by (apply one_line_app; [reflexivity | exact Hline]).
      vm_compute. lia.
    - rewrite (app_assoc (lit "Fallback failed: ")).
      apply loading_text_is_refused.
      cbn [app].
      rewrite (splitlines_first_line loading_marker) by reflexivity.
      rewrite splitlines_blank_line.
      assert (Hone : splitlines (lit "Fallback failed: " ++ msg e)
                     = [lit "Fallback failed: " ++ msg e]).
      { apply splitlines_one_line; [|discriminate].
        apply one_line_app; [reflexivity | exact Hline]. }
      rewrite Hone. simpl. lia. }
  unfold save_and_open. rewrite Hguard. reflexivity.
Qed.

Lemma failed_run_is_not_saved_witness :
  step1_failed (snd (summarize_recipe native_breaks stale_window))
  /\ files (save_and_open linux_box
              (fresh_desk (snd (summarize_recipe native_breaks stale_window))))
     = (fun _ => None)
  /\ launched (save_and_open linux_box
                 (fresh_desk
                    (snd (summarize_recipe native_breaks stale_window))))
     = []
  /\ dialogs (win (save_and_open linux_box
                     (fresh_desk
                        (snd (summarize_recipe native_breaks stale_window)))))
     = [ShowWarning (lit "Nothing to save") (lit "Run a summary first.")].
Proof.
  assert (Hfailed : step1_failed
                      (win (fresh_desk
                              (snd (summarize_recipe native_breaks
                                      stale_window))))).
  { exists (Exn AttributeError (lit "no schema")).
    split; [|left]; vm_compute; reflexivity. }
  split; [exact Hfailed|].
  rewrite (failed_run_is_not_saved linux_box _ Hfailed).
  repeat split; vm_compute; reflexivity.
Defined.

(** ** What a save leaves alone *)

(** X9.  A save changes at most one file, the one whose name it builds
    from the title: every other file of the directory holds afterwards
    what it held before.  It never changes the text of the widget or the
    entry, and calls none of the libraries. *)
Theorem save_changes_one_file (h : host) (d : desk) (p : pystr) :
  p <> file_path (path_exists (files d)) (datetime_now h)
         (title_to_save (win d)) ->
  files (save_and_open h d) p = files d p
  /\ output_text (win (save_and_open h d)) = output_text (win d)
  /\ url_entry (win (save_and_open h d)) = url_entry (win d)
  /\ calls (win (save_and_open h d)) = calls (win d).
Proof.
  intros Hp. unfold save_and_open.
  destruct (nothing_to_save (text_to_save (win d))); [now repeat split|].
  fold (title_to_save (win d)).
  destruct (write_file h _ _) as [| e | e partial].
  - destruct (launch_error h _); cbn [files win];
      now rewrite (disk_write_other _ _ _ _ Hp).
  - now repeat split.
  - cbn [files win]. now rewrite (disk_write_other _ _ _ _ Hp).
Qed.

Lemma save_changes_one_file_witness :
  files (save_and_open linux_box
           {| win := pie_window;
              files := disk_write (fun _ => None) (lit "notes.txt")
                         (lit "buy apples");
              boxes := []; launched := [] |})
        (lit "notes.txt")
  = Some (lit "buy apples")
  /\ output_text (win (save_and_open linux_box (fresh_desk pie_window)))
     = output_text pie_window.
Proof.
  pose proof (save_changes_one_file linux_box
                {| win := pie_window;
                   files := disk_write (fun _ => None) (lit "notes.txt")
                              (lit "buy apples");
                   boxes := []; launched := [] |}
                (lit "notes.txt")) as Hframe.
  premise Hframe ltac:(vm_compute; discriminate).
  destruct Hframe as (Hfile & _). rewrite Hfile.
  split; vm_compute; reflexivity.
Defined.
